(** * poker_tracker.py: the hand-history store and its statistics

    The program keeps every logged poker hand in one CSV file
    ([DATA_FILE = "poker_hands.csv"]) and goes through pandas for all reading,
    appending and aggregation.  This development embeds

    - the three store functions [init_data_file], [load_hands], [save_hand],
    - [main] and the form of [log_hand_page], with the time stamp it takes
      from the clock,
    - the filter, the table and the download of [hand_history_page], and
    - the figures and the table of recent hands of [stats_page],

    together with the part of pandas they run on: [DataFrame], [pd.concat],
    [DataFrame.to_csv], [pd.read_csv] with its default missing-value and dtype
    inference, boolean indexing, [groupby(..).sum()], [value_counts],
    [sort_values], [tail] and the selection of columns.

    Modelling boundaries.
    - The file is kept after tokenisation: a list of lines, each a list of
      fields.  Quoting by the csv writer and unquoting by the tokenizer are
      taken to be inverse to each other.
    - Of the pages, what is computed is embedded, not how it is drawn.
      [stats_page] and [hand_history_page] stop at the figures and at the
      filtered frame; [stats_view] and [hand_history_view] go on to the
      tables in the order shown and to the download.
    - Python's [float] is a type parameter.  Its decimal rendering and parsing
      ([NumText]) and its arithmetic ([NumArith]) are interfaces; every law a
      theorem needs of them is a hypothesis of that theorem.  Binary64 itself
      is the instance [float_arith], at which the statements about the win
      rate are made and the laws of sums ([SumLaws]) are proved.
    - The order in which numpy and pandas add up a column or a group is not
      fixed here: the two sums are operations of [NumArith].  The binary64
      instance adds in row order, as they do for the short columns of the
      examples. *)

From Stdlib Require Import String Ascii List ZArith Lia Bool Arith PeanoNat.
From Stdlib Require Import Permutation Sorted QArith Floats.
From Stdlib Require Import DecimalString DecimalZ DecimalPos.
Import ListNotations.

#[local] Close Scope Q_scope.
#[local] Open Scope string_scope.
#[local] Open Scope list_scope.
#[local] Open Scope nat_scope.

Set Implicit Arguments.

(* ------------------------------------------------------------------------- *)
(** * Numbers *)

(** What the store needs of Python's [float]: conversion from an integer and
    equality. *)
Class Number (num : Type) := {
  num_of_int : Z -> num;
  num_eqb : num -> num -> bool
}.

(** The text side: [repr] as [to_csv] writes a float, and the converter
    [read_csv] applies to a field ([None]: the field is not a float). *)
Class NumText (num : Type) := {
  num_repr : num -> string;
  num_parse : string -> option num
}.

(** The arithmetic side, as used by [stats_page]: addition, multiplication
    and order of floats; [int / int], the true division of two Python
    integers; the sum numpy makes of the values of a column ([Series.sum]),
    and the sum [groupby(..).sum()] makes of the values of one group. *)
Class NumArith (num : Type) := {
  num_add : num -> num -> num;
  num_mul : num -> num -> num;
  int_truediv : Z -> Z -> num;
  num_leb : num -> num -> bool;
  num_sum : list num -> num;
  num_group_sum : list num -> num
}.

Definition num_zero {num} `{Number num} : num := num_of_int 0%Z.

(** The values added one after the other, from zero, in the order given. *)
Definition added_in_order {num} `{Number num} (add : num -> num -> num)
    (xs : list num) : num :=
  fold_left add xs num_zero.

(* ------------------------------------------------------------------------- *)
(** * Exceptions *)

Inductive exn :=
| EmptyDataError                              (* "No columns to parse from file" *)
| ParserError (expected line saw : nat)       (* "Expected e fields in line l, saw s" *)
| OSError                                     (* the file cannot be read or written *)
| KeyError (label : string)                   (* df[label] on a missing column *)
| TypeError.                                  (* arithmetic on a text column *)

Definition io_result (A : Type) : Type := (exn + A)%type.

Definition ok {A} (a : A) : io_result A := inr a.
Definition raise {A} (e : exn) : io_result A := inl e.

Definition bind {A B} (m : io_result A) (k : A -> io_result B) : io_result B :=
  match m with
  | inl e => inl e
  | inr a => k a
  end.

Notation "'let*' x ':=' m 'in' k" := (bind m (fun x => k))
  (at level 10, x name, m at level 100, k at level 200).

(* ------------------------------------------------------------------------- *)
(** * Cells and frames *)

(** A value held in a DataFrame: a [str], an integer (int64 or uint64 column),
    a float, a bool, or the missing value NaN. *)
Inductive cell (num : Type) :=
| CStr (s : string)
| CInt (z : Z)
| CNum (x : num)
| CBool (b : bool)
| CNaN.

Arguments CStr {num} s.
Arguments CInt {num} z.
Arguments CNum {num} x.
Arguments CBool {num} b.
Arguments CNaN {num}.

(** Row-major table with labelled columns; the index is always the default
    RangeIndex here ([ignore_index=True], [index=False]) and is not kept. *)
Record DataFrame (num : Type) := {
  columns : list string;
  rows : list (list (cell num))
}.

Arguments columns {num} _.
Arguments rows {num} _.

(** [pd.DataFrame()] *)
Definition empty_frame {num} : DataFrame num := {| columns := []; rows := [] |}.

(** [len(df)] *)
Definition len {num} (df : DataFrame num) : nat := length (rows df).

(** [df.empty]: some axis has length 0. *)
Definition df_empty {num} (df : DataFrame num) : bool :=
  match columns df, rows df with
  | [], _ => true
  | _, [] => true
  | _, _ => false
  end.

(* ------------------------------------------------------------------------- *)
(** * Text of a field *)

Definition is_space (c : ascii) : bool :=
  let n := nat_of_ascii c in (n =? 32) || ((9 <=? n) && (n <=? 13)).

Definition digit_val (c : ascii) : option Z :=
  let n := nat_of_ascii c in
  if (48 <=? n) && (n <=? 57) then Some (Z.of_nat (n - 48)) else None.

Fixpoint skip_spaces (s : string) : string :=
  match s with
  | String c r => if is_space c then skip_spaces r else s
  | EmptyString => s
  end.

Fixpoint scan_digits (acc : Z) (s : string) : Z * string :=
  match s with
  | String c r =>
      match digit_val c with
      | Some d => scan_digits (10 * acc + d) r
      | None => (acc, s)
      end
  | EmptyString => (acc, s)
  end.

(** The integer converter of the C parser without its range check: blanks,
    one optional sign, at least one digit, blanks, end of field. *)
Definition str_to_int (s : string) : option Z :=
  let s1 := skip_spaces s in
  let '(neg, s2) :=
    match s1 with
    | String c r =>
        if Ascii.eqb c "-" then (true, r)
        else if Ascii.eqb c "+" then (false, r)
        else (false, s1)
    | EmptyString => (false, s1)
    end in
  match s2 with
  | String c _ =>
      match digit_val c with
      | Some _ =>
          let '(v, rest) := scan_digits 0 s2 in
          match skip_spaces rest with
          | EmptyString => Some (if neg then - v else v)%Z
          | String _ _ => None
          end
      | None => None
      end
  | EmptyString => None
  end.

Definition in_int64 (z : Z) : bool := ((- 2 ^ 63 <=? z) && (z <? 2 ^ 63))%Z.
Definition in_uint64 (z : Z) : bool := ((0 <=? z) && (z <? 2 ^ 64))%Z.

(** The default missing-value tokens of [read_csv] (STR_NA_VALUES). *)
Definition na_values : list string :=
  [ ""; "#N/A"; "#N/A N/A"; "#NA"; "-1.#IND"; "-1.#QNAN"; "-NaN"; "-nan";
    "1.#IND"; "1.#QNAN"; "<NA>"; "N/A"; "NA"; "NULL"; "NaN"; "None"; "n/a";
    "nan"; "null" ].

Definition mem (s : string) (l : list string) : bool := existsb (String.eqb s) l.

Definition is_na (s : string) : bool := mem s na_values.

Definition bool_token (s : string) : option bool :=
  if mem s ["True"; "TRUE"; "true"] then Some true
  else if mem s ["False"; "FALSE"; "false"] then Some false
  else None.

Definition is_some {A} (o : option A) : bool :=
  match o with Some _ => true | None => false end.

(** Python's [str] of an integer, and of a natural number. *)
Definition str_of_int (z : Z) : string := NilZero.string_of_int (Z.to_int z).
Definition str_of_nat (n : nat) : string := str_of_int (Z.of_nat n).

(* ------------------------------------------------------------------------- *)
(** * The CSV file, tokenised *)

Definition csv_row := list string.
Definition csv_text := list csv_row.

(** An empty line: no field at all.  (A lone empty field is written quoted and
    is a line of one field.) *)
Definition is_blank (r : csv_row) : bool :=
  match r with [] => true | _ :: _ => false end.

Definition pad_row (width : nat) (r : csv_row) : csv_row :=
  r ++ repeat "" (width - length r).

(** [end_line] of the tokenizer, line after line.  [lines] counts the lines
    kept so far (the header is line 0), [file_lines] the lines of the file,
    [ex_fields] the fields of the line kept last.  Blank lines are skipped.
    A line after the first data line with more fields than the line before
    it is the error; a data line with fewer is completed with empty fields. *)
Fixpoint end_lines (lines file_lines ex_fields : nat) (input : csv_text)
  : io_result csv_text :=
  match input with
  | [] => ok []
  | r :: rest =>
      if is_blank r then end_lines lines (S file_lines) ex_fields rest
      else
        let fields := length r in
        if (1 <? lines) && (ex_fields <? fields)
        then raise (ParserError ex_fields (S file_lines) fields)
        else
          let r' := if (1 <=? lines) && (fields <? ex_fields)
                    then pad_row ex_fields r else r in
          let* kept := end_lines (S lines) (S file_lines) (length r') rest in
          ok (r' :: kept)
  end.

(** An empty header field is named after its position.  (pandas also
    renames a label that occurs twice, which is not done here: the header
    this program writes has seven distinct labels, and the statements about
    the labels of other files are made for distinct labels.) *)
Fixpoint name_columns (i : nat) (header : csv_row) : list string :=
  match header with
  | [] => []
  | h :: t =>
      (if String.eqb h "" then ("Unnamed: " ++ str_of_nat i)%string else h)
        :: name_columns (S i) t
  end.

(* ------------------------------------------------------------------------- *)
(** * dtype inference of [read_csv] *)

Inductive dtype := DInt | DFloat | DBool | DObject.

Section Reading.

Context {num : Type} {NT : NumText num}.

Definition int_overflows (s : string) : bool :=
  match str_to_int s with
  | Some z => negb (in_int64 z)
  | None => false
  end.

Definition is_int64 (s : string) : bool :=
  match str_to_int s with
  | Some z => in_int64 z
  | None => false
  end.

Definition is_uint64 (s : string) : bool :=
  match str_to_int s with
  | Some z => in_uint64 z
  | None => false
  end.

(** The cast order int64, float64, bool, object over the fields of one
    column.  An integer column with a missing value is read as float64; a
    column of integers of which one overflows int64 is uint64 if that fits
    every field, and is kept as text otherwise. *)
Definition infer_dtype (vals : list string) : dtype :=
  let vs := filter (fun v => negb (is_na v)) vals in
  let has_na := existsb is_na vals in
  if forallb (fun v => is_some (str_to_int v)) vs && existsb int_overflows vs
  then if negb has_na && forallb is_uint64 vs then DInt else DObject
  else if negb has_na && forallb is_int64 vs then DInt
  else if forallb (fun v => is_some (num_parse v)) vs then DFloat
  else if forallb (fun v => is_some (bool_token v)) vs then DBool
  else DObject.

Definition convert_cell (dt : dtype) (raw : string) : cell num :=
  if is_na raw then CNaN
  else match dt with
       | DInt => match str_to_int raw with Some z => CInt z | None => CNaN end
       | DFloat => match num_parse raw with Some x => CNum x | None => CNaN end
       | DBool => match bool_token raw with Some b => CBool b | None => CNaN end
       | DObject => CStr raw
       end.

(** The fields of column [j]. *)
Definition raw_column (j : nat) (data : csv_text) : list string :=
  map (fun r => nth j r "") data.

Fixpoint convert_row (dts : list dtype) (r : csv_row) : list (cell num) :=
  match dts, r with
  | dt :: dts', f :: r' => convert_cell dt f :: convert_row dts' r'
  | _, _ => []
  end.

(** [pd.read_csv(text)] with every option at its default.  When the first
    data line has more fields than the header, the leading extra fields are
    the index, which is dropped here. *)
Definition read_csv (text : csv_text) : io_result (DataFrame num) :=
  let* kept := end_lines 0 0 0 text in
  match kept with
  | [] => raise EmptyDataError
  | header :: data =>
      let width := match data with [] => length header | r :: _ => length r end in
      let leading := width - length header in
      let data' := map (skipn leading) data in
      let dts := map (fun j => infer_dtype (raw_column j data'))
                     (seq 0 (length header)) in
      ok {| columns := name_columns 0 header;
            rows := map (convert_row dts) data' |}
  end.

End Reading.

(* ------------------------------------------------------------------------- *)
(** * Writing a frame, joining frames *)

Section Writing.

Context {num : Type} {N : Number num} {NT : NumText num}.

(** A cell as [to_csv] writes it ([na_rep=''], floats by [repr]). *)
Definition cell_text (c : cell num) : string :=
  match c with
  | CStr s => s
  | CInt z => str_of_int z
  | CNum x => num_repr x
  | CBool b => if b then "True" else "False"
  | CNaN => ""
  end.

(** [df.to_csv(path, index=False)]: the header line, then one line per row. *)
Definition to_csv (df : DataFrame num) : csv_text :=
  columns df :: map (map cell_text) (rows df).

(** The cell of row [r], laid out along [cols], under label [c]; NaN when the
    row has no such column. *)
Fixpoint lookup_cell (cols : list string) (r : list (cell num)) (c : string)
  : cell num :=
  match cols, r with
  | k :: cols', v :: r' => if String.eqb k c then v else lookup_cell cols' r' c
  | _, _ => CNaN
  end.

Definition reindex (cols target : list string) (r : list (cell num))
  : list (cell num) :=
  map (lookup_cell cols r) target.

Definition is_int_cell (c : cell num) : bool :=
  match c with CInt _ => true | _ => false end.

Definition is_float_cell (c : cell num) : bool :=
  match c with CNum _ | CNaN => true | _ => false end.

(** int64 joined with float64 (or with the NaN that fills a missing column)
    gives float64: the integers of such a column become floats. *)
Definition upcasts (col : list (cell num)) : bool :=
  existsb is_int_cell col && existsb is_float_cell col
  && forallb (fun c => is_int_cell c || is_float_cell c) col.

Definition to_float (c : cell num) : cell num :=
  match c with
  | CInt z => CNum (num_of_int z)
  | _ => c
  end.

Fixpoint upcast_row (flags : list bool) (r : list (cell num)) : list (cell num) :=
  match flags, r with
  | f :: flags', c :: r' => (if f then to_float c else c) :: upcast_row flags' r'
  | _, _ => r
  end.

Definition upcast_columns (width : nat) (rs : list (list (cell num)))
  : list (list (cell num)) :=
  let flags := map (fun j => upcasts (map (fun r => nth j r CNaN) rs))
                   (seq 0 width) in
  map (upcast_row flags) rs.

(** [pd.concat([a, b], ignore_index=True)]: the columns of [a], then those of
    [b] that [a] lacks; the rows of [a], then those of [b]. *)
Definition concat (a b : DataFrame num) : DataFrame num :=
  let cols := columns a ++ filter (fun c => negb (mem c (columns a))) (columns b) in
  let rs := map (reindex (columns a) cols) (rows a)
            ++ map (reindex (columns b) cols) (rows b) in
  {| columns := cols; rows := upcast_columns (length cols) rs |}.

End Writing.

(* ------------------------------------------------------------------------- *)
(** * A logged hand *)

(** The options of the three select boxes of [log_hand_page]. *)
Inductive Position := UTG | UTG1 | MP | CO | BTN | SB | BB.
Inductive Action := Fold | Call | Raise | AllIn.
Inductive Result := Won | Lost | Chopped.

Definition position_str (p : Position) : string :=
  match p with
  | UTG => "UTG" | UTG1 => "UTG+1" | MP => "MP" | CO => "CO"
  | BTN => "BTN" | SB => "SB" | BB => "BB"
  end.

Definition action_str (a : Action) : string :=
  match a with
  | Fold => "Fold" | Call => "Call" | Raise => "Raise" | AllIn => "All-in"
  end.

Definition result_str (r : Result) : string :=
  match r with
  | Won => "Won" | Lost => "Lost" | Chopped => "Chopped"
  end.

(** The dict [hand_data] built by [log_hand_page]. *)
Record Hand (num : Type) := {
  timestamp : string;
  position : Position;
  hole_cards : string;
  action : Action;
  result : Result;
  profit_loss : num;
  notes : string
}.

Arguments timestamp {num} _.
Arguments position {num} _.
Arguments hole_cards {num} _.
Arguments action {num} _.
Arguments result {num} _.
Arguments profit_loss {num} _.
Arguments notes {num} _.

(** The keys of [hand_data], which are the header of the file. *)
Definition hand_columns : list string :=
  [ "timestamp"; "position"; "hole_cards"; "action"; "result"; "profit_loss";
    "notes" ].

Definition hand_row {num} (h : Hand num) : list (cell num) :=
  [ CStr (timestamp h); CStr (position_str (position h)); CStr (hole_cards h);
    CStr (action_str (action h)); CStr (result_str (result h));
    CNum (profit_loss h); CStr (notes h) ].

(** [pd.DataFrame([hand_data])] *)
Definition frame_of_hand {num} (h : Hand num) : DataFrame num :=
  {| columns := hand_columns; rows := [hand_row h] |}.

(** The frame whose rows are the given hands, in order. *)
Definition frame_of_hands {num} (hs : list (Hand num)) : DataFrame num :=
  {| columns := hand_columns; rows := map hand_row hs |}.

(* ------------------------------------------------------------------------- *)
(** * The store *)

(** The state is the content of [DATA_FILE]; [None] when there is no file. *)
Definition file_system := option csv_text.

(** What the operating system does to the one read or write of a call. *)
Inductive io_fault :=
| Healthy
| ReadFails                   (* the file cannot be read *)
| OpenFails                   (* the file cannot be opened for writing *)
| WriteFailsAfter (n : nat).  (* opened and truncated; the write stops after n lines *)

Section Store.

Context {num : Type} {N : Number num} {NT : NumText num}.

(** [os.path.exists(DATA_FILE)] *)
Definition exists_file (fs : file_system) : bool :=
  match fs with Some _ => true | None => false end.

(** [df.to_csv(DATA_FILE, index=False)]: the file is opened in mode 'w',
    which empties it, and the lines are written in order. *)
Definition write_csv (io : io_fault) (df : DataFrame num) (fs : file_system)
  : file_system * io_result unit :=
  match io with
  | OpenFails => (fs, raise OSError)
  | WriteFailsAfter n => (Some (firstn n (to_csv df)), raise OSError)
  | Healthy | ReadFails => (Some (to_csv df), ok tt)
  end.

Definition init_data_file (io : io_fault) (fs : file_system)
  : file_system * io_result unit :=
  if negb (exists_file fs)
  then write_csv io {| columns := hand_columns; rows := [] |} fs
  else (fs, ok tt).

Definition load_hands (io : io_fault) (fs : file_system)
  : io_result (DataFrame num) :=
  match fs with
  | Some text =>
      match io with
      | ReadFails => raise OSError
      | _ => read_csv text
      end
  | None => ok empty_frame
  end.

Definition save_hand (io : io_fault) (hand_data : Hand num) (fs : file_system)
  : file_system * io_result unit :=
  match load_hands io fs with
  | inl e => (fs, inl e)
  | inr df =>
      let new_hand := frame_of_hand hand_data in
      write_csv io (concat df new_hand) fs
  end.


End Store.

(* ------------------------------------------------------------------------- *)
(** * Series and frame operations of the two pages *)

Section Pages.

Context {num : Type} {N : Number num} {NA : NumArith num}.

Fixpoint index_of (label : string) (cols : list string) : option nat :=
  match cols with
  | [] => None
  | c :: t => if String.eqb c label then Some 0
              else option_map S (index_of label t)
  end.

(** [df[label]] *)
Definition get_column (label : string) (df : DataFrame num)
  : io_result (list (cell num)) :=
  match index_of label (columns df) with
  | Some j => ok (map (fun r => nth j r CNaN) (rows df))
  | None => raise (KeyError label)
  end.

Definition cell_eqb (a b : cell num) : bool :=
  match a, b with
  | CStr s, CStr t => String.eqb s t
  | CInt x, CInt y => Z.eqb x y
  | CNum x, CNum y => num_eqb x y
  | CInt z, CNum x | CNum x, CInt z => num_eqb (num_of_int z) x
  | CBool x, CBool y => Bool.eqb x y
  | CNaN, CNaN => true
  | _, _ => false
  end.

(** [series.isin(values)] *)
Definition isin (col values : list (cell num)) : list bool :=
  map (fun c => existsb (cell_eqb c) values) col.

(** [series == text] *)
Definition eq_str (col : list (cell num)) (text : string) : list bool :=
  map (fun c => match c with CStr s => String.eqb s text | _ => false end) col.

Fixpoint mask_and (a b : list bool) : list bool :=
  match a, b with
  | x :: a', y :: b' => (x && y) :: mask_and a' b'
  | _, _ => []
  end.

(** [df[mask]]: the rows whose mask entry is True, in order. *)
Fixpoint select {A} (mask : list bool) (rs : list A) : list A :=
  match mask, rs with
  | m :: mask', r :: rs' => if m then r :: select mask' rs' else select mask' rs'
  | _, _ => []
  end.

(** [series.unique()]: the distinct values in order of first appearance. *)
Fixpoint unique (col : list (cell num)) : list (cell num) :=
  match col with
  | [] => []
  | c :: t => c :: filter (fun d => negb (cell_eqb d c)) (unique t)
  end.

(** [filtered_df] of [hand_history_page]: the rows whose position is among
    [filter_position] and whose result is among [filter_result]. *)
Definition filtered_df (df : DataFrame num)
    (filter_position filter_result : list (cell num))
  : io_result (DataFrame num) :=
  let* pos := get_column "position" df in
  let* res := get_column "result" df in
  ok {| columns := columns df;
        rows := select (mask_and (isin pos filter_position)
                                 (isin res filter_result)) (rows df) |}.

(** The numbers of a column that is added up: missing values are skipped,
    integers and booleans count as floats, text cannot be added. *)
Fixpoint column_values (col : list (cell num)) : io_result (list num) :=
  match col with
  | [] => ok []
  | c :: t =>
      match c with
      | CNum x => let* xs := column_values t in ok (x :: xs)
      | CInt z => let* xs := column_values t in ok (num_of_int z :: xs)
      | CBool b =>
          let* xs := column_values t in
          ok (num_of_int (if b then 1 else 0)%Z :: xs)
      | CNaN => column_values t
      | CStr _ => raise TypeError
      end
  end.

(** [series.sum()] *)
Definition series_sum (col : list (cell num)) : io_result num :=
  let* xs := column_values col in
  ok (num_sum xs).

(** [total_hands = len(df)] *)
Definition total_hands (df : DataFrame num) : nat := len df.

(** [total_profit = df['profit_loss'].sum()] *)
Definition total_profit (df : DataFrame num) : io_result num :=
  let* col := get_column "profit_loss" df in
  series_sum col.

(** [won_hands = len(df[df['result'] == 'Won'])] *)
Definition won_hands (df : DataFrame num) : io_result nat :=
  let* res := get_column "result" df in
  ok (length (select (eq_str res "Won") (rows df))).

(** [win_rate = (won_hands / total_hands * 100) if total_hands > 0 else 0]:
    the two counts are Python integers, their quotient is a float. *)
Definition win_rate (df : DataFrame num) : io_result num :=
  let* won := won_hands df in
  ok (if 0 <? total_hands df
      then num_mul (int_truediv (Z.of_nat won) (Z.of_nat (total_hands df)))
                   (num_of_int 100)
      else num_of_int 0).

(** Order of group keys: numbers before text, text by code point. *)
Definition key_leb (a b : cell num) : bool :=
  match a, b with
  | CStr s, CStr t => String.leb s t
  | CStr _, _ => false
  | _, CStr _ => true
  | CInt x, CInt y => Z.leb x y
  | CNum x, CNum y => num_leb x y
  | CInt z, CNum x => num_leb (num_of_int z) x
  | CNum x, CInt z => num_leb x (num_of_int z)
  | _, _ => true
  end.

Fixpoint insert_by {A} (leb : A -> A -> bool) (x : A) (l : list A) : list A :=
  match l with
  | [] => [x]
  | y :: t => if leb x y then x :: l else y :: insert_by leb x t
  end.

(** A stable sort by [leb]. *)
Definition sort_by {A} (leb : A -> A -> bool) (l : list A) : list A :=
  fold_right (insert_by leb) [] l.

Definition not_nan (c : cell num) : bool :=
  match c with CNaN => false | _ => true end.

(** The group keys of [groupby]: the distinct values of the key column, the
    missing value left out, in ascending order. *)
Definition group_keys (keys : list (cell num)) : list (cell num) :=
  sort_by key_leb (unique (filter not_nan keys)).

(** [position_stats =
      df.groupby('position')['profit_loss'].sum().sort_values(ascending=False)] *)
Fixpoint sum_groups (keys vals : list (cell num)) (groups : list (cell num))
  : io_result (list (cell num * num)) :=
  match groups with
  | [] => ok []
  | k :: t =>
      let* xs := column_values (select (map (fun c => cell_eqb c k) keys) vals) in
      let* rest := sum_groups keys vals t in
      ok ((k, num_group_sum xs) :: rest)
  end.

Definition position_stats (df : DataFrame num)
  : io_result (list (cell num * num)) :=
  let* pos := get_column "position" df in
  let* pl := get_column "profit_loss" df in
  let* sums := sum_groups pos pl (group_keys pos) in
  ok (sort_by (fun a b => num_leb (snd b) (snd a)) sums).

(** [position_counts = df['position'].value_counts()]: one entry per distinct
    value, the missing value left out, the most frequent first. *)
Definition value_counts (col : list (cell num)) : list (cell num * nat) :=
  sort_by (fun a b => snd b <=? snd a)
    (map (fun k => (k, length (filter (fun c => cell_eqb c k) col)))
         (unique (filter not_nan col))).

Definition position_counts (df : DataFrame num)
  : io_result (list (cell num * nat)) :=
  let* pos := get_column "position" df in
  ok (value_counts pos).

(** The figures [stats_page] shows. *)
Record Stats := {
  metric_total_hands : nat;
  metric_total_pl : num;
  metric_hands_won : nat;
  metric_win_rate : num;
  chart_profit_by_position : list (cell num * num);
  chart_hands_by_position : list (cell num * nat)
}.

End Pages.

Arguments Stats num : clear implicits.

Section PagesOverStore.

Context {num : Type} {N : Number num} {NT : NumText num} {NA : NumArith num}.

(** [stats_page]: [None] stands for the notice shown when [df.empty]. *)
Definition stats_page (io : io_fault) (fs : file_system)
  : io_result (option (Stats num)) :=
  let* df := load_hands io fs in
  if df_empty df then ok None
  else
    let* profit := total_profit df in
    let* won := won_hands df in
    let* rate := win_rate df in
    let* stats := position_stats df in
    let* counts := position_counts df in
    ok (Some {| metric_total_hands := total_hands df;
                metric_total_pl := profit;
                metric_hands_won := won;
                metric_win_rate := rate;
                chart_profit_by_position := stats;
                chart_hands_by_position := counts |}).

(** [hand_history_page] up to [filtered_df]; a multiselect left untouched
    ([None]) holds every distinct value of its column.  The table shown and
    the CSV offered for download are both made from [filtered_df]. *)
Definition hand_history_page (io : io_fault) (fs : file_system)
    (chosen_position chosen_result : option (list (cell num)))
  : io_result (option (DataFrame num)) :=
  let* df := load_hands io fs in
  if df_empty df then ok None
  else
    let* pos := get_column "position" df in
    let* res := get_column "result" df in
    let filter_position := match chosen_position with
                           | Some l => l | None => unique pos end in
    let filter_result := match chosen_result with
                         | Some l => l | None => unique res end in
    let* shown := filtered_df df filter_position filter_result in
    ok (Some shown).

End PagesOverStore.

(* ------------------------------------------------------------------------- *)
(** * Fields that are read back as text *)

Definition is_digit (c : ascii) : bool := is_some (digit_val c).

Definition is_sign (c : ascii) : bool :=
  Ascii.eqb c "+" || Ascii.eqb c "-".

(** The characters of an integer literal, blanks around it included. *)
Definition int_char (c : ascii) : bool := is_digit c || is_sign c || is_space c.

(** The characters of a decimal float literal. *)
Definition numeric_char (c : ascii) : bool :=
  int_char c || Ascii.eqb c "." || Ascii.eqb c "e" || Ascii.eqb c "E".

Definition to_lower (c : ascii) : ascii :=
  let n := nat_of_ascii c in
  if (65 <=? n) && (n <=? 90) then ascii_of_nat (n + 32) else c.

Fixpoint lower (s : string) : string :=
  match s with
  | String c r => String (to_lower c) (lower r)
  | EmptyString => EmptyString
  end.

Fixpoint all_chars (p : ascii -> bool) (s : string) : bool :=
  match s with
  | String c r => p c && all_chars p r
  | EmptyString => true
  end.

(** Fields a float converter may accept: decimal literals and the spellings
    of infinity. *)
Definition numeric_looking (s : string) : bool :=
  all_chars numeric_char s
  || mem (lower s) ["inf"; "+inf"; "-inf"; "infinity"; "+infinity"; "-infinity"].

(** A field that [read_csv] leaves as the text it is, whatever else its
    column holds: not a missing-value token, not numeric, not a boolean. *)
Definition plain (s : string) : bool :=
  negb (is_na s) && negb (numeric_looking s) && negb (is_some (bool_token s)).

(** The laws of float text that the round trip through the file rests on. *)
Class NumTextLaws (num : Type) {NT : NumText num} : Prop := {
  parse_repr : forall x : num, num_parse (num_repr x) = Some x;
  repr_not_int : forall x : num, str_to_int (num_repr x) = None;
  repr_not_na : forall x : num, is_na (num_repr x) = false;
  parse_numeric : forall (s : string) (x : num),
      num_parse s = Some x -> numeric_looking s = true
}.

Arguments NumTextLaws num {NT}.

(** Whole numbers of a unit (half dollars, say): their sum, and the sum of
    their magnitudes. *)
Definition sum_Z (ks : list Z) : Z := fold_right Z.add 0%Z ks.

Definition abs_sum (ks : list Z) : Z :=
  fold_right (fun k s => (Z.abs k + s)%Z) 0%Z ks.

Section ExactAmounts.

Context {num : Type} {N : Number num} {NA : NumArith num}.

(** Additions that do not round.  [f] gives the float of a whole number of
    units; up to the magnitude [B] the float sum of two such floats is the
    float of the sum.  (In binary64 the multiples of 0.5 are such floats, up
    to 2^53 halves.) *)
Definition exact_on (f : Z -> num) (B : Z) : Prop :=
  f 0%Z = num_zero
  /\ forall a b : Z,
       (Z.abs a <= B)%Z -> (Z.abs b <= B)%Z -> (Z.abs (a + b) <= B)%Z ->
       num_add (f a) (f b) = f (a + b)%Z.


End ExactAmounts.

(** What is known of the two sums whatever the order of their additions:
    nothing added is zero, and where no addition rounds the result is the
    exact sum. *)
Class SumLaws (num : Type) {N : Number num} {NA : NumArith num} : Prop := {
  sum_nil : num_sum (num:=num) [] = num_zero;
  sum_exact : forall (f : Z -> num) (B : Z) (ks : list Z),
      exact_on f B -> (abs_sum ks <= B)%Z -> num_sum (map f ks) = f (sum_Z ks);
  group_sum_exact : forall (f : Z -> num) (B : Z) (ks : list Z),
      exact_on f B -> (abs_sum ks <= B)%Z ->
      num_group_sum (map f ks) = f (sum_Z ks)
}.

Arguments SumLaws num {N NA}.

(* ------------------------------------------------------------------------- *)
(** * Number types *)

(** Binary64, the [float] of Python.  An integer becomes the float nearest
    to it, ties to even.  (Beyond the largest float Python raises instead;
    no integer of a column of int64 or uint64 is that large.) *)
Definition float_of_int (z : Z) : float :=
  SF2Prim (binary_normalize prec emax z 0 false).

(** [a / b] of two Python integers, as [won_hands / total_hands] is: the
    quotient of the two integers themselves, rounded once to the nearest
    float (the integers are not made floats first).  A zero divisor, which
    Python refuses, does not occur: [win_rate] divides only when there is a
    hand. *)
Definition int_SF (z : Z) : spec_float :=
  match z with
  | Z0 => S754_zero false
  | Zpos p => S754_finite false p 0
  | Zneg p => S754_finite true p 0
  end.

Definition float_truediv (a b : Z) : float :=
  SF2Prim (SFdiv prec emax (int_SF a) (int_SF b)).

#[export] Instance float_number : Number float :=
  {| num_of_int := float_of_int; num_eqb := PrimFloat.eqb |}.

(** The two sums add in row order, from zero.  numpy does so for a column of
    fewer than eight values and the compensated sum of [groupby] for a group
    of at most two; the binary64 examples stay within these sizes, and the
    theorems use of the two sums only the laws of [SumLaws]. *)
#[export] Instance float_arith : NumArith float :=
  {| num_add := PrimFloat.add; num_mul := PrimFloat.mul;
     int_truediv := float_truediv; num_leb := PrimFloat.leb;
     num_sum := added_in_order PrimFloat.add;
     num_group_sum := added_in_order PrimFloat.add |}.



(** Whole amounts, written the way Python writes an integral float:
    [25.0], [-1.0]. *)
Fixpoint before_point_zero (s : string) : option string :=
  match s with
  | EmptyString => None
  | String c r =>
      if String.eqb s ".0" then Some EmptyString
      else option_map (String c) (before_point_zero r)
  end.

Definition whole_repr (z : Z) : string := (str_of_int z ++ ".0")%string.

Definition whole_parse (s : string) : option Z :=
  match before_point_zero s with
  | Some p => option_map Z.of_int (NilZero.int_of_string p)
  | None => None
  end.

#[export] Instance whole_number : Number Z :=
  {| num_of_int := fun z => z; num_eqb := Z.eqb |}.

#[export] Instance whole_text : NumText Z :=
  {| num_repr := whole_repr; num_parse := whole_parse |}.

(** Sums, products and order of whole amounts are those of the integers.  The
    quotient is rounded down: no statement about a ratio is made at this
    type. *)
#[export] Instance whole_arith : NumArith Z :=
  {| num_add := Z.add; num_mul := Z.mul; int_truediv := Z.div;
     num_leb := Z.leb;
     num_sum := added_in_order Z.add; num_group_sum := added_in_order Z.add |}.

(* ------------------------------------------------------------------------- *)
(** * Vocabulary of the statements *)

Scheme Equality for Position.
Scheme Equality for Result.

Definition longer_than (w : nat) (r : csv_row) : bool := w <? length r.

Definition not_blank (r : csv_row) : bool := negb (is_blank r).

Section Vocabulary.

Context {num : Type} {N : Number num} {NT : NumText num} {NA : NumArith num}.



(** The line of the file that holds a hand. *)
Definition raw_row (h : Hand num) : csv_row := map cell_text (hand_row h).

(** The file that holds the hands [hs]. *)
Definition stored (hs : list (Hand num)) : csv_text :=
  hand_columns :: map raw_row hs.

(** A text field as it comes back from the file when its column is text. *)
Definition text_cell (s : string) : cell num :=
  if is_na s then CNaN else CStr s.

(** A hand as it comes back from the file: the row of [hand_data], except
    that empty notes are the missing value. *)
Definition loaded_row (h : Hand num) : list (cell num) :=
  [ CStr (timestamp h); CStr (position_str (position h)); CStr (hole_cards h);
    CStr (action_str (action h)); CStr (result_str (result h));
    CNum (profit_loss h); text_cell (notes h) ].

Definition loaded_frame (hs : list (Hand num)) : DataFrame num :=
  {| columns := hand_columns; rows := map loaded_row hs |}.


(** The hand passes the two filters of the history page. *)
Definition keeps (ps : list Position) (rs : list Result) (h : Hand num) : bool :=
  existsb (Position_beq (position h)) ps && existsb (Result_beq (result h)) rs.

Definition position_cell (p : Position) : cell num := CStr (position_str p).
Definition result_cell (r : Result) : cell num := CStr (result_str r).

Definition is_text_cell (c : cell num) : bool :=
  match c with CStr _ => true | _ => false end.

(** A column of text only, as the position column of a loaded frame is. *)
Definition text_keys (keys : list (cell num)) : Prop :=
  Forall (fun c => is_text_cell c = true) keys.

(** The number of hands won. *)
Definition won_count (hs : list (Hand num)) : nat :=
  length (filter (fun h => Result_beq (result h) Won) hs).


End Vocabulary.

(* ------------------------------------------------------------------------- *)
(** * Sample hands, in whole amounts *)

Definition sample_won : Hand Z :=
  {| timestamp := "2024-03-01 20:15:00"; position := BTN; hole_cards := "AhKd";
     action := Raise; result := Won; profit_loss := 25%Z; notes := "" |}.

Definition sample_lost : Hand Z :=
  {| timestamp := "2024-03-01 20:21:30"; position := BB; hole_cards := "7c2d";
     action := Fold; result := Lost; profit_loss := (-1)%Z; notes := "blind" |}.

Definition pocket_sevens : Hand Z :=
  {| timestamp := "2024-03-01 20:40:10"; position := CO; hole_cards := "77";
     action := Call; result := Won; profit_loss := 12%Z; notes := "set on the flop" |}.

(** A file kept by hand: two hands with some of their columns, a column of
    whole numbers and a column of booleans. *)
Definition sample_header : csv_row :=
  [ "timestamp"; "position"; "profit_loss"; "notes"; "table"; "seen" ].

Definition sample_lines : csv_text :=
  [ ["2024-03-01 20:15:00"; "BTN"; "25.0"; ""; "3"; "True"];
    ["2024-03-01 20:21:30"; "BB"; "-1.0"; "blind"; "12"; "False"] ].

(* ------------------------------------------------------------------------- *)
(** * Sample hands, in binary64 *)

Definition hand_of {num} (p : Position) (r : Result) (amount : num) : Hand num :=
  {| timestamp := "2024-03-01 20:15:00"; position := p; hole_cards := "AhKd";
     action := Raise; result := r; profit_loss := amount; notes := "" |}.

#[local] Set Warnings "-inexact-float".


(** The two hands of the end-to-end scenario: 25.5 won on the button, 1.0
    lost in the big blind; and their amounts in half dollars. *)
Definition scenario_floats : list (Hand float) :=
  [ hand_of BTN Won 25.5%float; hand_of BB Lost (-1)%float ].



(* ------------------------------------------------------------------------- *)
(** * The clock of [log_hand_page] *)

(** The fields of [datetime.now()] that [strftime] prints (the microseconds
    are printed by neither format of the program). *)
Record datetime := {
  year : nat;
  month : nat;
  day : nat;
  hour : nat;
  minute : nat;
  second : nat
}.

(** The ranges of a Python [datetime] whose year has four digits (its
    hundreds are between 10 and 99). *)
Definition valid_datetime (t : datetime) : bool :=
  (10 <=? year t / 100) && (year t / 100 <? 100)
  && (1 <=? month t) && (month t <=? 12)
  && (1 <=? day t) && (day t <=? 31)
  && (hour t <? 24) && (minute t <? 60) && (second t <? 60).

Definition digit_char (n : nat) : ascii := ascii_of_nat (48 + n mod 10).

(** The last two decimal digits of [n], and the last four. *)
Definition two_digits (n : nat) : string :=
  String (digit_char (n / 10)) (String (digit_char n) EmptyString).

Definition four_digits (n : nat) : string :=
  (two_digits (n / 100) ++ two_digits n)%string.

(** The directives the program uses; any other is left as written.  (The C
    libraries differ on whether [%Y] pads a year below 1000; the statements
    about time stamps are made for years of four digits.) *)
Definition directive (d : ascii) (t : datetime) : string :=
  if Ascii.eqb d "Y" then four_digits (year t)
  else if Ascii.eqb d "m" then two_digits (month t)
  else if Ascii.eqb d "d" then two_digits (day t)
  else if Ascii.eqb d "H" then two_digits (hour t)
  else if Ascii.eqb d "M" then two_digits (minute t)
  else if Ascii.eqb d "S" then two_digits (second t)
  else String "%" (String d EmptyString).

(** [t.strftime(format)] *)
Fixpoint strftime (format : string) (t : datetime) : string :=
  match format with
  | EmptyString => EmptyString
  | String c rest =>
      if Ascii.eqb c "%"
      then match rest with
           | String d rest' => (directive d t ++ strftime rest' t)%string
           | EmptyString => String c EmptyString
           end
      else String c (strftime rest t)
  end.

(** The order of two datetimes: field by field, the year first. *)
Definition then_compare (c1 c2 : comparison) : comparison :=
  match c1 with Eq => c2 | _ => c1 end.

Definition datetime_compare (a b : datetime) : comparison :=
  then_compare (year a ?= year b)
    (then_compare (month a ?= month b)
       (then_compare (day a ?= day b)
          (then_compare (hour a ?= hour b)
             (then_compare (minute a ?= minute b) (second a ?= second b))))).

Definition same_comparison (a b : comparison) : bool :=
  match a, b with
  | Eq, Eq | Lt, Lt | Gt, Gt => true
  | _, _ => false
  end.

(* ------------------------------------------------------------------------- *)
(** * The pages in full *)

(** The widgets of the form of [log_hand_page], and its submit button. *)
Record Form (num : Type) := {
  form_position : Position;
  form_hole_cards : string;
  form_action : Action;
  form_result : Result;
  form_profit_loss : num;
  form_notes : string;
  form_submitted : bool
}.

Arguments form_position {num} _.
Arguments form_hole_cards {num} _.
Arguments form_action {num} _.
Arguments form_result {num} _.
Arguments form_profit_loss {num} _.
Arguments form_notes {num} _.
Arguments form_submitted {num} _.

(** What [log_hand_page] shows under the form. *)
Inductive log_message :=
| NothingSubmitted
| HoleCardsMissing      (* st.error("Please enter your hole cards!") *)
| HandLogged.           (* st.success("Hand logged successfully!") *)

(** The option of the sidebar. *)
Inductive page := LogHand | HandHistory | Statistics.

(** The format of the time stamp of a hand. *)
Definition stamp_format : string := "%Y-%m-%d %H:%M:%S".

(** [hand_data] as [log_hand_page] builds it from the form and the clock. *)
Definition hand_of_form {num} (now : datetime) (f : Form num) : Hand num :=
  {| timestamp := strftime "%Y-%m-%d %H:%M:%S" now;
     position := form_position f;
     hole_cards := form_hole_cards f;
     action := form_action f;
     result := form_result f;
     profit_loss := form_profit_loss f;
     notes := form_notes f |}.

(** [rows.tail(n)]: the last [n] of them, all when there are fewer. *)
Definition tail {A} (n : nat) (l : list A) : list A := skipn (length l - n) l.

Section PagesInFull.

Context {num : Type} {N : Number num} {NT : NumText num} {NA : NumArith num}.

Definition log_hand_page (io : io_fault) (now : datetime) (form : Form num)
    (fs : file_system) : file_system * io_result log_message :=
  if form_submitted form
  then
    if String.eqb (form_hole_cards form) ""
    then (fs, ok HoleCardsMissing)
    else
      match save_hand io (hand_of_form now form) fs with
      | (fs', inl e) => (fs', inl e)
      | (fs', inr _) => (fs', ok HandLogged)
      end
  else (fs, ok NothingSubmitted).

(** [df.sort_values(label, ascending=False)]: the rows in descending order of
    the column, rows with a missing value last.  (Rows of equal value are
    kept here in the order they had; pandas promises no order for them.) *)
Definition sort_values_desc (label : string) (df : DataFrame num)
  : io_result (DataFrame num) :=
  let* col := get_column label df in
  let keyed := combine col (rows df) in
  let present := filter (fun kr => not_nan (fst kr)) keyed in
  let missing := filter (fun kr => negb (not_nan (fst kr))) keyed in
  ok {| columns := columns df;
        rows := map snd (sort_by (fun a b => key_leb (fst b) (fst a)) present
                         ++ missing) |}.

Fixpoint indices_of (labels cols : list string) : io_result (list nat) :=
  match labels with
  | [] => ok []
  | l :: t =>
      match index_of l cols with
      | Some j => let* js := indices_of t cols in ok (j :: js)
      | None => raise (KeyError l)
      end
  end.

(** [df[labels]]: the named columns, in the order named. *)
Definition select_columns (labels : list string) (df : DataFrame num)
  : io_result (DataFrame num) :=
  let* js := indices_of labels (columns df) in
  ok {| columns := labels;
        rows := map (fun r => map (fun j => nth j r CNaN) js) (rows df) |}.

(** [recent = df.tail(10)[['timestamp', 'position', 'hole_cards', 'result',
                            'profit_loss']]] *)
Definition recent (df : DataFrame num) : io_result (DataFrame num) :=
  select_columns ["timestamp"; "position"; "hole_cards"; "result"; "profit_loss"]
    {| columns := columns df; rows := tail 10 (rows df) |}.

(** What [hand_history_page] shows when there are hands. *)
Record History := {
  history_total : nat;                      (* "Total Hands Logged" *)
  history_positions : list (cell num);      (* options of the first multiselect *)
  history_results : list (cell num);        (* options of the second *)
  history_table : DataFrame num;            (* the table, latest time stamp first *)
  history_csv : csv_text;                   (* data of the download button *)
  history_file_name : string                (* its file name *)
}.

(** [hand_history_page], with the table and the download. *)
Definition hand_history_view (io : io_fault) (now : datetime) (fs : file_system)
    (chosen_position chosen_result : option (list (cell num)))
  : io_result (option History) :=
  let* df := load_hands io fs in
  if df_empty df then ok None
  else
    let* pos := get_column "position" df in
    let* res := get_column "result" df in
    let filter_position := match chosen_position with
                           | Some l => l | None => unique pos end in
    let filter_result := match chosen_result with
                         | Some l => l | None => unique res end in
    let* filtered := filtered_df df filter_position filter_result in
    let* table := sort_values_desc "timestamp" filtered in
    ok (Some {| history_total := len df;
                history_positions := unique pos;
                history_results := unique res;
                history_table := table;
                history_csv := to_csv filtered;
                history_file_name :=
                  ("poker_hands_" ++ strftime "%Y%m%d" now ++ ".csv")%string |}).

(** [stats_page], with the table of the recent hands under the figures. *)
Definition stats_view (io : io_fault) (fs : file_system)
  : io_result (option (Stats num * DataFrame num)) :=
  let* df := load_hands io fs in
  if df_empty df then ok None
  else
    let* profit := total_profit df in
    let* won := won_hands df in
    let* rate := win_rate df in
    let* stats := position_stats df in
    let* counts := position_counts df in
    let* last := recent df in
    let* shown := sort_values_desc "timestamp" last in
    ok (Some ({| metric_total_hands := total_hands df;
                 metric_total_pl := profit;
                 metric_hands_won := won;
                 metric_win_rate := rate;
                 chart_profit_by_position := stats;
                 chart_hands_by_position := counts |}, shown)).

(** What one run of the script shows. *)
Inductive view :=
| LogHandView (m : log_message)
| HandHistoryView (h : option History)
| StatisticsView (s : option (Stats num * DataFrame num)).

(** What the user and the clock bring to one run of the script. *)
Record request := {
  req_page : page;
  req_clock : datetime;
  req_form : Form num;
  req_positions : option (list (cell num));
  req_results : option (list (cell num))
}.

(** [main]: the file is initialised, then the chosen page runs.  [io_init] is
    the state of the disk for the former, [io_page] for the latter. *)
Definition main (io_init io_page : io_fault) (req : request) (fs : file_system)
  : file_system * io_result view :=
  match init_data_file io_init fs with
  | (fs1, inl e) => (fs1, inl e)
  | (fs1, inr _) =>
      match req_page req with
      | LogHand =>
          match log_hand_page io_page (req_clock req) (req_form req) fs1 with
          | (fs2, inl e) => (fs2, inl e)
          | (fs2, inr m) => (fs2, ok (LogHandView m))
          end
      | HandHistory =>
          (fs1, let* h := hand_history_view io_page (req_clock req) fs1
                            (req_positions req) (req_results req) in
                ok (HandHistoryView h))
      | Statistics =>
          (fs1, let* s := stats_view io_page fs1 in ok (StatisticsView s))
      end
  end.


End PagesInFull.

Arguments History num : clear implicits.
Arguments view num : clear implicits.
Arguments request num : clear implicits.

(* ------------------------------------------------------------------------- *)
(** * Vocabulary of the statements about the pages *)

Section PageVocabulary.

Context {num : Type} {N : Number num}.


(** The form is submitted with hole cards. *)
Definition form_accepted (f : Form num) : bool :=
  form_submitted f && negb (String.eqb (form_hole_cards f) "").

(** The run is one of the Log Hand page with an accepted form. *)
Definition logs_a_hand (r : request num) : bool :=
  match req_page r with
  | LogHand => form_accepted (req_form r)
  | _ => false
  end.






(** The field of a hand that belongs under a label of the file, as it is
    written; the empty field under a label the hand does not have. *)
Definition hand_field {NT : NumText num} (h : Hand num) (label : string)
  : string :=
  if String.eqb "timestamp" label then timestamp h
  else if String.eqb "position" label then position_str (position h)
  else if String.eqb "hole_cards" label then hole_cards h
  else if String.eqb "action" label then action_str (action h)
  else if String.eqb "result" label then result_str (result h)
  else if String.eqb "profit_loss" label then num_repr (profit_loss h)
  else if String.eqb "notes" label then notes h
  else "".

(** The hands at a position, and their number. *)
Definition hands_at (p : Position) (hs : list (Hand num)) : list (Hand num) :=
  filter (fun h => Position_beq (position h) p) hs.


End PageVocabulary.

(* ------------------------------------------------------------------------- *)
(** * A sample session *)



Unset Implicit Arguments.

(* ========================================================================= *)
(** * Properties of the tokenizer *)

Lemma end_lines_cons (lines file_lines ex_fields : nat) (r : csv_row)
    (rest : csv_text) :
  end_lines lines file_lines ex_fields (r :: rest)
  = if is_blank r then end_lines lines (S file_lines) ex_fields rest
    else if (1 <? lines) && (ex_fields <? length r)
         then raise (ParserError ex_fields (S file_lines) (length r))
         else
           let r' := if (1 <=? lines) && (length r <? ex_fields)
                     then pad_row ex_fields r else r in
           bind (end_lines (S lines) (S file_lines) (length r') rest)
                (fun kept => ok (r' :: kept)).
Proof. reflexivity. Qed.

Lemma bind_ok {A B} (a : A) (k : A -> io_result B) : bind (ok a) k = k a.
Proof. reflexivity. Qed.

Lemma map_skipn_0 {A} (l : list (list A)) : map (skipn 0) l = l.
Proof. rewrite <- (map_id l) at 2. apply map_ext. reflexivity. Qed.

Lemma pad_row_length (w : nat) (r : csv_row) :
  length r <= w -> length (pad_row w r) = w.
Proof.
  intros H. unfold pad_row. rewrite length_app, repeat_length. lia.
Qed.

Lemma pad_row_full (w : nat) (r : csv_row) : length r = w -> pad_row w r = r.
Proof.
  intros H. unfold pad_row. rewrite H, Nat.sub_diag. simpl. apply app_nil_r.
Qed.

(** From the first data line on, a line of at most the expected width is
    completed to it. *)
Lemma completed_row (w lines : nat) (r : csv_row) :
  1 <= lines -> length r <= w ->
  (if (1 <=? lines) && (length r <? w) then pad_row w r else r) = pad_row w r.
Proof.
  intros Hl Hr. destruct (length r <? w) eqn:E.
  - apply Nat.leb_le in Hl. rewrite Hl. reflexivity.
  - rewrite andb_false_r. symmetry. apply pad_row_full.
    apply Nat.ltb_ge in E. lia.
Qed.

(** With no line longer than the expected width, every line that is not
    blank is kept, completed to that width. *)
Lemma end_lines_short (w : nat) (input : csv_text) :
  existsb (longer_than w) input = false ->
  forall lines file_lines, 1 <= lines ->
  end_lines lines file_lines w input
  = ok (map (pad_row w) (filter not_blank input)).
Proof.
  induction input as [|r rest IH]; intros Hlong lines fl Hl.
  - reflexivity.
  - simpl in Hlong. apply orb_false_iff in Hlong as [Hr Hrest].
    unfold longer_than in Hr. rewrite end_lines_cons.
    cbn [filter]. unfold not_blank at 1.
    destruct (is_blank r) eqn:Eb; cbn [negb].
    + apply IH; assumption.
    + rewrite Hr, andb_false_r. cbv zeta.
      assert (Hlen : length r <= w) by (apply Nat.ltb_ge; exact Hr).
      rewrite (completed_row w lines r Hl Hlen), (pad_row_length w r Hlen).
      rewrite IH by (auto; lia). reflexivity.
Qed.


Lemma rect_not_longer (w : nat) (data : csv_text) :
  Forall (fun r => length r = w) data -> existsb (longer_than w) data = false.
Proof.
  induction 1 as [|r rs Hr Hrs IH]; [reflexivity|].
  cbn [existsb]. rewrite IH, orb_false_r. unfold longer_than. rewrite Hr.
  apply Nat.ltb_irrefl.
Qed.

Lemma rect_kept (w : nat) (data : csv_text) :
  0 < w -> Forall (fun r => length r = w) data ->
  map (pad_row w) (filter not_blank data) = data.
Proof.
  intros Hw. induction 1 as [|r rs Hr Hrs IH]; [reflexivity|].
  cbn [filter]. destruct r as [|f r']; [simpl in Hr; lia|].
  change (not_blank (f :: r')) with true. cbn [map]. rewrite IH. f_equal.
  apply pad_row_full. exact Hr.
Qed.

(** A file of lines that all have the width of the header goes through the
    tokenizer unchanged. *)
Lemma end_lines_rect (header : csv_row) (data : csv_text) :
  header <> [] ->
  Forall (fun r => length r = length header) data ->
  end_lines 0 0 0 (header :: data) = ok (header :: data).
Proof.
  intros Hh Hd. rewrite end_lines_cons.
  destruct header as [|h0 ht]; [congruence|]. cbn [is_blank Nat.ltb Nat.leb andb].
  cbv zeta.
  rewrite end_lines_short; [| apply rect_not_longer; exact Hd | lia].
  rewrite rect_kept; [reflexivity | simpl; lia | exact Hd].
Qed.

(* ========================================================================= *)
(** * The store on a well-formed file *)

Section StoreFacts.

Context {num : Type} {N : Number num} {NT : NumText num}.















(** [read_csv] on a file whose lines all have the width of the header. *)
Lemma read_csv_rect (header : csv_row) (data : csv_text) :
  header <> [] ->
  Forall (fun r => length r = length header) data ->
  read_csv (num:=num) (header :: data)
  = ok {| columns := name_columns 0 header;
          rows := map (convert_row
                         (map (fun j => infer_dtype (raw_column j data))
                              (seq 0 (length header)))) data |}.
Proof.
  intros Hh Hd. unfold read_csv. rewrite (end_lines_rect header data Hh Hd).
  rewrite bind_ok.
  assert (Hw : match data with [] => length header | r :: _ => length r end
               - length header = 0).
  { destruct Hd as [|r rs Hr _]; [|rewrite Hr]; apply Nat.sub_diag. }
  rewrite Hw, map_skipn_0. reflexivity.
Qed.

(** C2. [init_data_file] creates the file with the header line alone when
    there is none, and that file loads as a frame of seven columns and no
    row; on a file that exists, data lines or not, it changes nothing and
    raises nothing, whatever the state of the disk; so a second call leaves
    what the first call left. *)
Theorem init_data_file_idempotent :
  init_data_file (num:=num) Healthy None = (Some [hand_columns], ok tt)
  /\ load_hands (num:=num) Healthy (Some [hand_columns])
     = ok {| columns := hand_columns; rows := [] |}
  /\ (forall (io : io_fault) (content : csv_text),
        init_data_file (num:=num) io (Some content) = (Some content, ok tt))
  /\ (forall (io : io_fault) (fs : file_system),
        init_data_file (num:=num) io (fst (init_data_file (num:=num) Healthy fs))
        = (fst (init_data_file (num:=num) Healthy fs), ok tt)).
Proof.
  repeat split.
  - intros io [content|]; reflexivity.
Qed.


End StoreFacts.


(** What the file loads as: text, text, floats, text with a missing value,
    integers, booleans. *)
Lemma load_hands_file_order_example :
  load_hands (num:=Z) Healthy (Some (sample_header :: sample_lines))
  = ok {| columns := sample_header;
          rows := [[CStr "2024-03-01 20:15:00"; CStr "BTN"; CNum 25%Z; CNaN;
                    CInt 3; CBool true];
                   [CStr "2024-03-01 20:21:30"; CStr "BB"; CNum (-1)%Z;
                    CStr "blind"; CInt 12; CBool false]] |}.
Proof. reflexivity. Qed.


(* ========================================================================= *)
(** * Fields: integers, numeric text, plain text *)

Lemma all_chars_impl (p q : ascii -> bool) (s : string) :
  (forall c, p c = true -> q c = true) ->
  all_chars p s = true -> all_chars q s = true.
Proof.
  intros Hpq. induction s as [|c r IH]; [reflexivity|].
  cbn [all_chars]. intros H. apply andb_true_iff in H as [H1 H2].
  rewrite (Hpq c H1), (IH H2). reflexivity.
Qed.

Lemma all_chars_app (p : ascii -> bool) (a b : string) :
  all_chars p (a ++ b)%string = all_chars p a && all_chars p b.
Proof.
  induction a as [|c r IH]; [reflexivity|].
  cbn [String.append all_chars]. rewrite IH. apply andb_assoc.
Qed.

Lemma skip_spaces_chars (s : string) :
  all_chars int_char (skip_spaces s) = true -> all_chars int_char s = true.
Proof.
  induction s as [|c r IH]; [reflexivity|].
  cbn [skip_spaces]. destruct (is_space c) eqn:E; [|tauto].
  intros H. cbn [all_chars]. rewrite (IH H). unfold int_char. rewrite E.
  rewrite orb_true_r. reflexivity.
Qed.

Lemma skip_spaces_empty (s : string) :
  skip_spaces s = EmptyString -> all_chars int_char s = true.
Proof.
  intros H. apply skip_spaces_chars. rewrite H. reflexivity.
Qed.

Lemma scan_digits_chars (s : string) :
  forall (acc v : Z) (rest : string),
    scan_digits acc s = (v, rest) ->
    all_chars int_char rest = true -> all_chars int_char s = true.
Proof.
  induction s as [|c r IH]; intros acc v rest H Hrest.
  - reflexivity.
  - cbn [scan_digits] in H. destruct (digit_val c) as [d|] eqn:E.
    + cbn [all_chars]. rewrite (IH _ _ _ H Hrest).
      unfold int_char, is_digit. rewrite E. reflexivity.
    + injection H as _ <-. exact Hrest.
Qed.

(** An integer literal is made of digits, signs and blanks only. *)
Lemma str_to_int_chars (s : string) (z : Z) :
  str_to_int s = Some z -> all_chars int_char s = true.
Proof.
  unfold str_to_int. intros H. apply skip_spaces_chars.
  destruct (skip_spaces s) as [|c r] eqn:E1; [discriminate|].
  assert (Hbody : forall s2 neg,
             match s2 with
             | String c0 _ =>
                 match digit_val c0 with
                 | Some _ =>
                     let '(v, rest) := scan_digits 0 s2 in
                     match skip_spaces rest with
                     | EmptyString => Some (if neg : bool then (- v)%Z else v)
                     | String _ _ => None
                     end
                 | None => None
                 end
             | EmptyString => None
             end = Some z -> all_chars int_char s2 = true).
  { intros s2 neg. destruct s2 as [|c0 r0]; [discriminate|].
    destruct (digit_val c0); [|discriminate].
    destruct (scan_digits 0 (String c0 r0)) as [v rest] eqn:E2.
    destruct (skip_spaces rest) eqn:E3; [|discriminate]. intros _.
    apply (scan_digits_chars _ _ _ _ E2). apply skip_spaces_empty. exact E3. }
  destruct (Ascii.eqb c "-") eqn:Em.
  - cbn [all_chars]. rewrite (Hbody r true H).
    unfold int_char, is_sign. rewrite Em.
    destruct (is_digit c), (Ascii.eqb c "+"); reflexivity.
  - destruct (Ascii.eqb c "+") eqn:Ep.
    + cbn [all_chars]. rewrite (Hbody r false H).
      unfold int_char, is_sign. rewrite Ep.
      destruct (is_digit c); reflexivity.
    + apply (Hbody (String c r) false H).
Qed.









(* ========================================================================= *)
(** * dtype inference on the columns the program writes *)



Section Inference.

Context {num : Type} {NT : NumText num} {L : NumTextLaws num}.





End Inference.

(* ========================================================================= *)
(** * The file the program writes, and what it reads back *)

Section RoundTrip.

Context {num : Type} {N : Number num} {NT : NumText num} {L : NumTextLaws num}.






Lemma upcast_row_no_int (flags : list bool) (r : list (cell num)) :
  Forall (fun c => is_int_cell c = false) r -> upcast_row flags r = r.
Proof.
  revert flags. induction r as [|c r IH]; intros flags Hr.
  - destruct flags; reflexivity.
  - destruct flags as [|f flags]; [reflexivity|]. cbn [upcast_row].
    inversion Hr as [|? ? Hc Hr']; subst. rewrite (IH flags Hr').
    destruct f; [|reflexivity]. destruct c; try reflexivity. discriminate.
Qed.



Lemma hand_row_no_int (h : Hand num) :
  Forall (fun c => is_int_cell c = false) (hand_row h).
Proof. repeat constructor. Qed.



Lemma concat_empty (h : Hand num) :
  concat empty_frame (frame_of_hand h) = frame_of_hand h.
Proof. reflexivity. Qed.





End RoundTrip.

(* ========================================================================= *)
(** * Whole amounts satisfy the laws of float text *)

Lemma before_point_zero_app (p : string) :
  before_point_zero (p ++ ".0") = Some p.
Proof.
  induction p as [|c r IH]; [reflexivity|].
  cbn [String.append before_point_zero]. rewrite IH.
  assert (E : String.eqb (String c (r ++ ".0")) ".0" = false).
  { cbn [String.eqb]. destruct (Ascii.eqb c "."); [|reflexivity].
    destruct r as [|c' r']; [reflexivity|].
    cbn [String.append String.eqb]. destruct (Ascii.eqb c' "0"); [|reflexivity].
    destruct r'; reflexivity. }
  rewrite E. reflexivity.
Qed.

Lemma before_point_zero_inv (s p : string) :
  before_point_zero s = Some p -> s = (p ++ ".0")%string.
Proof.
  revert p. induction s as [|c r IH]; intros p H; [discriminate|].
  cbn [before_point_zero] in H.
  destruct (String.eqb (String c r) ".0") eqn:E.
  - apply String.eqb_eq in E. injection H as <-. exact E.
  - destruct (before_point_zero r) as [q|]; [|discriminate].
    injection H as <-. cbn [String.append]. f_equal. apply IH. reflexivity.
Qed.

Lemma uint_digits (u : Decimal.uint) :
  all_chars is_digit (NilEmpty.string_of_uint u) = true.
Proof. induction u; cbn [NilEmpty.string_of_uint all_chars]; auto. Qed.

Lemma digit_numeric (c : ascii) : is_digit c = true -> numeric_char c = true.
Proof. intros H. unfold numeric_char, int_char. rewrite H. reflexivity. Qed.

Lemma int_text_numeric (d : Decimal.signed_int) :
  all_chars numeric_char (NilZero.string_of_int d) = true.
Proof.
  assert (H : forall u, all_chars numeric_char (NilZero.string_of_uint u) = true).
  { intros u. destruct u; try reflexivity;
      apply (all_chars_impl is_digit _ _ digit_numeric);
      apply (uint_digits (_ u)). }
  destruct d as [u|u]; cbn [NilZero.string_of_int all_chars]; rewrite H; reflexivity.
Qed.

Lemma to_int_proper (z : Z) :
  Z.to_int z <> Decimal.Pos Decimal.Nil /\ Z.to_int z <> Decimal.Neg Decimal.Nil.
Proof.
  destruct z as [|p|p]; cbn [Z.to_int]; split; try discriminate;
    intros H; injection H; apply Unsigned.to_uint_nonnil.
Qed.

#[export] Instance whole_text_laws : NumTextLaws Z.
Proof.
  constructor.
  - intros z. cbn [num_parse num_repr whole_text]. unfold whole_parse, whole_repr.
    rewrite before_point_zero_app. unfold str_of_int.
    destruct (to_int_proper z) as [H1 H2].
    rewrite (NilZero.isi _ H1 H2). cbn [option_map]. rewrite of_to. reflexivity.
  - intros z. cbn [num_repr whole_text]. unfold whole_repr.
    destruct (str_to_int _) as [v|] eqn:E; [|reflexivity].
    apply str_to_int_chars in E. rewrite all_chars_app in E.
    rewrite andb_false_r in E. discriminate.
  - intros z. cbn [num_repr whole_text]. unfold whole_repr.
    destruct (is_na _) eqn:E; [|reflexivity].
    unfold is_na, mem in E. apply existsb_exists in E as (t & Hin & Ht).
    apply String.eqb_eq in Ht.
    assert (Hb := before_point_zero_app (str_of_int z)). rewrite Ht in Hb.
    cbn [na_values In] in Hin.
    repeat (destruct Hin as [<-|Hin]; [discriminate Hb|]). destruct Hin.
  - intros s x. cbn [num_parse whole_text]. unfold whole_parse.
    destruct (before_point_zero s) as [p|] eqn:E; [|discriminate].
    apply before_point_zero_inv in E. subst s.
    destruct (NilZero.int_of_string p) as [d|] eqn:Ed; [|discriminate].
    intros _. apply NilZero.sis in Ed. subst p.
    unfold numeric_looking. rewrite all_chars_app, int_text_numeric. reflexivity.
Qed.

(* ------------------------------------------------------------------------- *)
(** * Sums added in row order, and binary64 *)



Lemma abs_sum_nonneg (ks : list Z) : (0 <= abs_sum ks)%Z.
Proof. induction ks as [|k ks IH]; cbn [abs_sum fold_right]; [lia|]. fold (abs_sum ks). lia. Qed.


Section InOrder.

Context {num : Type} {N : Number num} {NA : NumArith num}.

Lemma fold_exact (f : Z -> num) (B : Z) (ks : list Z) :
  exact_on f B ->
  forall acc : Z,
    (Z.abs acc + abs_sum ks <= B)%Z ->
    fold_left num_add (map f ks) (f acc) = f (acc + sum_Z ks)%Z.
Proof.
  intros [_ Hadd]. induction ks as [|k ks IH]; intros acc Hb.
  - cbn. rewrite Z.add_0_r. reflexivity.
  - cbn [map fold_left sum_Z abs_sum fold_right] in *.
    fold (sum_Z ks) (abs_sum ks) in *.
    pose proof (abs_sum_nonneg ks).
    rewrite Hadd by lia. rewrite IH by lia. f_equal. lia.
Qed.

Lemma added_in_order_exact (f : Z -> num) (B : Z) (ks : list Z) :
  exact_on f B -> (abs_sum ks <= B)%Z ->
  added_in_order num_add (map f ks) = f (sum_Z ks).
Proof.
  intros He Hb. unfold added_in_order. rewrite <- (proj1 He).
  rewrite (fold_exact f B ks He 0%Z) by (cbn; lia). reflexivity.
Qed.

(** Sums that add in row order keep the laws of sums. *)
Lemma in_order_laws :
  (forall xs : list num, num_sum xs = added_in_order num_add xs) ->
  (forall xs : list num, num_group_sum xs = added_in_order num_add xs) ->
  SumLaws num.
Proof.
  intros Hs Hg. constructor.
  - rewrite Hs. reflexivity.
  - intros f B ks He Hb. rewrite Hs. apply (added_in_order_exact f B ks He Hb).
  - intros f B ks He Hb. rewrite Hg. apply (added_in_order_exact f B ks He Hb).
Qed.

End InOrder.


#[export] Instance whole_sum_laws : SumLaws Z.
Proof. apply in_order_laws; reflexivity. Qed.

(** The quotient of a positive integer by itself is 1.0. *)
Lemma div_eucl_self (p : positive) :
  Z.div_eucl (Z.shiftl (Zpos p) 53) (Zpos p) = ((2 ^ 53)%Z, 0%Z).
Proof.
  rewrite Z.shiftl_mul_pow2 by lia.
  assert (Hq : (Zpos p * 2 ^ 53 / Zpos p = 2 ^ 53)%Z).
  { rewrite Z.mul_comm. apply Z.div_mul. discriminate. }
  assert (Hr : ((Zpos p * 2 ^ 53) mod Zpos p = 0)%Z).
  { rewrite Z.mul_comm. apply Z.mod_mul. discriminate. }
  unfold Z.div, Z.modulo in Hq, Hr.
  destruct (Z.div_eucl (Zpos p * 2 ^ 53) (Zpos p)) as [q r].
  subst. reflexivity.
Qed.

Lemma truediv_self (z : Z) : (0 < z)%Z -> float_truediv z z = 1%float.
Proof.
  intros Hz. destruct z as [|p|p]; try lia.
  unfold float_truediv. cbn [int_SF]. unfold SFdiv, SFdiv_core_binary.
  replace (Zdigits2 (Z.pos p) + 0 - (Zdigits2 (Z.pos p) + 0))%Z with 0%Z by lia.
  change (IntDef.Z.min (fexp prec emax 0) (0 - 0)) with (-53)%Z.
  change (0 - 0 - -53)%Z with 53%Z.
  cbv beta iota zeta.
  change (IntDef.Z.div_eucl (IntDef.Z.shiftl (Z.pos p) 53) (Z.pos p))
    with (Z.div_eucl (Z.shiftl (Zpos p) 53) (Zpos p)).
  rewrite div_eucl_self.
  assert (Hl : new_location (Zpos p) 0 = loc_Exact).
  { unfold new_location. destruct (IntDef.Z.even (Zpos p)); reflexivity. }
  rewrite Hl. vm_compute. reflexivity.
Qed.



(* ========================================================================= *)
(** * Appending and loading *)

Section AppendThenLoad.

Context {num : Type} {N : Number num} {NT : NumText num} {L : NumTextLaws num}.




End AppendThenLoad.





(* ========================================================================= *)
(** * The columns of a loaded frame *)

Section LoadedColumns.

Context {num : Type} {N : Number num} {NT : NumText num}.

Lemma position_column (hs : list (Hand num)) :
  get_column "position" (loaded_frame hs)
  = ok (map (fun h => position_cell (position h)) hs).
Proof.
  unfold get_column.
  change (index_of "position" (columns (loaded_frame hs))) with (Some 1).
  cbv beta iota. unfold loaded_frame. cbn [rows]. rewrite map_map. reflexivity.
Qed.

Lemma result_column (hs : list (Hand num)) :
  get_column "result" (loaded_frame hs)
  = ok (map (fun h => result_cell (result h)) hs).
Proof.
  unfold get_column.
  change (index_of "result" (columns (loaded_frame hs))) with (Some 4).
  cbv beta iota. unfold loaded_frame. cbn [rows]. rewrite map_map. reflexivity.
Qed.


Lemma position_str_eqb (p q : Position) :
  String.eqb (position_str p) (position_str q) = Position_beq p q.
Proof. destruct p, q; reflexivity. Qed.

Lemma result_str_eqb (r s : Result) :
  String.eqb (result_str r) (result_str s) = Result_beq r s.
Proof. destruct r, s; reflexivity. Qed.

Lemma Position_beq_eq (p q : Position) : Position_beq p q = true <-> p = q.
Proof. destruct p, q; split; intros H; try reflexivity; discriminate. Qed.

Lemma Result_beq_eq (r s : Result) : Result_beq r s = true <-> r = s.
Proof. destruct r, s; split; intros H; try reflexivity; discriminate. Qed.

Lemma isin_positions (p : Position) (ps : list Position) :
  existsb (cell_eqb (position_cell p)) (map position_cell ps)
  = existsb (Position_beq p) ps.
Proof.
  induction ps as [|q ps IH]; [reflexivity|].
  cbn [map existsb]. rewrite IH. f_equal. apply position_str_eqb.
Qed.

Lemma isin_results (r : Result) (rs : list Result) :
  existsb (cell_eqb (result_cell r)) (map result_cell rs)
  = existsb (Result_beq r) rs.
Proof.
  induction rs as [|s rs IH]; [reflexivity|].
  cbn [map existsb]. rewrite IH. f_equal. apply result_str_eqb.
Qed.

Lemma keeps_spec (ps : list Position) (rs : list Result) (h : Hand num) :
  keeps ps rs h = true <-> In (position h) ps /\ In (result h) rs.
Proof.
  unfold keeps. rewrite andb_true_iff, !existsb_exists. split.
  - intros [(p & Hp & Ep) (r & Hr & Er)].
    apply Position_beq_eq in Ep. apply Result_beq_eq in Er. subst. tauto.
  - intros [Hp Hr]. split.
    + exists (position h). split; [exact Hp | apply Position_beq_eq; reflexivity].
    + exists (result h). split; [exact Hr | apply Result_beq_eq; reflexivity].
Qed.

Lemma select_filtered (ps : list Position) (rs : list Result)
    (hs : list (Hand num)) :
  select (mask_and
            (isin (map (fun h => position_cell (position h)) hs)
                  (map position_cell ps))
            (isin (map (fun h => result_cell (result h)) hs)
                  (map result_cell rs)))
         (map loaded_row hs)
  = map loaded_row (filter (keeps ps rs) hs).
Proof.
  unfold isin. induction hs as [|h hs IH]; [reflexivity|].
  cbn [map mask_and select filter]. rewrite isin_positions, isin_results.
  change (existsb (Position_beq (position h)) ps
          && existsb (Result_beq (result h)) rs) with (keeps ps rs h).
  destruct (keeps ps rs h); cbn [map]; rewrite IH; reflexivity.
Qed.

Lemma keeps_no_position (rs : list Result) (hs : list (Hand num)) :
  filter (keeps [] rs) hs = [].
Proof. induction hs as [|h hs IH]; [reflexivity|exact IH]. Qed.

Lemma keeps_no_result (ps : list Position) (hs : list (Hand num)) :
  filter (keeps ps []) hs = [].
Proof.
  induction hs as [|h hs IH]; [reflexivity|].
  cbn [filter]. unfold keeps at 1. cbn [existsb]. rewrite andb_false_r. exact IH.
Qed.

(** C4. On the frame of the loaded hands, [filtered_df] for a choice of
    positions and a choice of results is the frame of exactly the hands whose
    position is among the former and whose result is among the latter, in the
    order they had; with no position chosen, or no result chosen, it has no
    row. *)
Theorem filtered_df_exact (hs : list (Hand num)) (ps : list Position)
    (rs : list Result) :
  filtered_df (loaded_frame hs) (map position_cell ps) (map result_cell rs)
  = ok (loaded_frame (filter (keeps ps rs) hs))
  /\ (forall h : Hand num,
        In h (filter (keeps ps rs) hs)
        <-> In h hs /\ In (position h) ps /\ In (result h) rs)
  /\ filtered_df (loaded_frame hs) [] (map result_cell rs) = ok (loaded_frame [])
  /\ filtered_df (loaded_frame hs) (map position_cell ps) [] = ok (loaded_frame []).
Proof.
  assert (Hgen : forall ps' rs',
             filtered_df (loaded_frame hs) (map position_cell ps')
                         (map result_cell rs')
             = ok (loaded_frame (filter (keeps ps' rs') hs))).
  { intros ps' rs'. unfold filtered_df.
    rewrite position_column, bind_ok, result_column, bind_ok.
    unfold loaded_frame at 2. cbn [rows columns].
    rewrite select_filtered. reflexivity. }
  split; [apply Hgen|]. split; [|split].
  - intros h. rewrite filter_In, keeps_spec. tauto.
  - change (@nil (cell num)) with (map (position_cell (num:=num)) []).
    rewrite (Hgen [] rs), keeps_no_position. reflexivity.
  - change (@nil (cell num)) with (map (result_cell (num:=num)) []).
    rewrite (Hgen ps []), keeps_no_result. reflexivity.
Qed.

End LoadedColumns.

(* ========================================================================= *)
(** * Win rate *)

Section WinRate.

Context {num : Type} {N : Number num} {NT : NumText num} {NA : NumArith num}.

Lemma won_hands_count (hs : list (Hand num)) :
  won_hands (loaded_frame hs) = ok (won_count hs).
Proof.
  unfold won_hands. rewrite result_column, bind_ok. f_equal.
  unfold won_count, loaded_frame, eq_str. cbn [rows].
  induction hs as [|h hs IH]; [reflexivity|].
  cbn [map select filter]. unfold result_cell at 1.
  destruct (result h); cbn; rewrite IH; reflexivity.
Qed.

Lemma all_won_count (hs : list (Hand num)) :
  Forall (fun h => result h = Won) hs -> won_count hs = length hs.
Proof.
  unfold won_count. induction 1 as [|h hs Hh Hhs IH]; [reflexivity|].
  cbn [filter]. rewrite Hh. cbn [Result_beq length]. rewrite IH. reflexivity.
Qed.

Lemma win_rate_of_hands (hs : list (Hand num)) :
  hs <> [] ->
  win_rate (loaded_frame hs)
  = ok (num_mul (int_truediv (Z.of_nat (won_count hs)) (Z.of_nat (length hs)))
                (num_of_int 100)).
Proof.
  intros Hne. unfold win_rate. rewrite won_hands_count, bind_ok.
  unfold total_hands, len, loaded_frame. cbn [rows]. rewrite length_map.
  destruct hs as [|h hs]; [congruence|]. reflexivity.
Qed.

End WinRate.

(** C3. In binary64, for a frame of at least one loaded hand, [win_rate] is
    the number of hands won divided by the number of hands, the quotient of
    the two integers rounded to a float, times 100; for the frame of no hand
    it is 0 and nothing is divided; and when every one of the hands, at
    least one, was won it is exactly 100. *)
Theorem win_rate_formula (hs : list (Hand float)) :
  (hs <> [] ->
   win_rate (loaded_frame hs)
   = ok (float_truediv (Z.of_nat (won_count hs)) (Z.of_nat (length hs))
         * 100)%float)
  /\ win_rate (loaded_frame (num:=float) []) = ok 0%float
  /\ (hs <> [] -> Forall (fun h => result h = Won) hs ->
      win_rate (loaded_frame hs) = ok 100%float).
Proof.
  split; [|split].
  - intros Hne. rewrite (win_rate_of_hands hs Hne). reflexivity.
  - reflexivity.
  - intros Hne Hall. rewrite (win_rate_of_hands hs Hne), (all_won_count hs Hall).
    cbn [int_truediv float_arith]. rewrite truediv_self; [reflexivity|].
    destruct hs; [congruence|]. cbn [length]. lia.
Qed.

(** With no file, or with the header alone, both pages show their notice and
    compute nothing. *)
Lemma pages_without_hands {num : Type} {N : Number num} {NT : NumText num}
    {NA : NumArith num} (io : io_fault)
    (chosen_position chosen_result : option (list (cell num))) :
  stats_page (num:=num) io None = ok None
  /\ stats_page (num:=num) Healthy (Some [hand_columns]) = ok None
  /\ hand_history_page io None chosen_position chosen_result = ok None
  /\ hand_history_page Healthy (Some [hand_columns]) chosen_position chosen_result
     = ok None.
Proof. repeat split. Qed.

(* ========================================================================= *)
(** * Sums over groups *)

Section CommutativeSum.

Variables (A : Type) (op : A -> A -> A) (e : A).
Hypothesis op_assoc : forall a b c, op a (op b c) = op (op a b) c.
Hypothesis op_comm : forall a b, op a b = op b a.
Hypothesis op_unit : forall a, op e a = a.




End CommutativeSum.

Lemma insert_by_perm {A} (leb : A -> A -> bool) (x : A) (l : list A) :
  Permutation (insert_by leb x l) (x :: l).
Proof.
  induction l as [|y l IH]; cbn [insert_by]; [reflexivity|].
  destruct (leb x y); [reflexivity|].
  rewrite IH. apply perm_swap.
Qed.

Lemma sort_by_perm {A} (leb : A -> A -> bool) (l : list A) :
  Permutation (sort_by leb l) l.
Proof.
  induction l as [|x l IH]; [reflexivity|].
  unfold sort_by. cbn [fold_right]. fold (sort_by leb l).
  rewrite insert_by_perm, IH. reflexivity.
Qed.


Section Groups.

Context {num : Type} {N : Number num} {NA : NumArith num}.




Lemma text_eqb (c k : cell num) :
  is_text_cell c = true -> is_text_cell k = true ->
  (cell_eqb c k = true <-> c = k).
Proof.
  destruct c, k; try discriminate. intros _ _. cbn [cell_eqb].
  rewrite String.eqb_eq. split; congruence.
Qed.

Lemma unique_in (keys : list (cell num)) (c : cell num) :
  text_keys keys -> (In c (unique keys) <-> In c keys).
Proof.
  intros Hk. induction Hk as [|k keys Hkt Hks IH]; [reflexivity|].
  cbn [unique In]. rewrite filter_In, IH. split.
  - tauto.
  - intros [->|Hin]; [left; reflexivity|].
    destruct (cell_eqb c k) eqn:Ec.
    + left. symmetry. apply text_eqb; auto.
      unfold text_keys in Hks. rewrite Forall_forall in Hks. apply Hks, Hin.
    + right. split; [exact Hin | reflexivity].
Qed.

Lemma unique_nodup (keys : list (cell num)) :
  text_keys keys -> NoDup (unique keys).
Proof.
  intros Hk. induction Hk as [|k keys Hkt Hks IH]; [constructor|].
  cbn [unique]. constructor.
  - rewrite filter_In. intros [_ H].
    assert (Hr : cell_eqb k k = true) by (apply text_eqb; auto).
    rewrite Hr in H. discriminate.
  - apply NoDup_filter. exact IH.
Qed.

Lemma text_not_nan (keys : list (cell num)) :
  text_keys keys -> filter not_nan keys = keys.
Proof.
  induction 1 as [|k keys Hk _ IH]; [reflexivity|].
  cbn [filter]. rewrite IH. destruct k; try discriminate. reflexivity.
Qed.




End Groups.

(* ------------------------------------------------------------------------- *)
(** * Amounts whose sums are exact *)






Section GroupsOfAmounts.

Context {num : Type} {N : Number num}.

Variables (keys groups : list (cell num)) (ks : list Z).
Hypothesis same_length : length keys = length ks.
Hypothesis groups_distinct : NoDup groups.
Hypothesis groups_all : forall c, In c keys -> In c groups.
Hypothesis groups_exact :
  forall c k, In c keys -> In k groups -> (cell_eqb c k = true <-> c = k).



End GroupsOfAmounts.

Section ExactSums.

Context {num : Type} {N : Number num} {NA : NumArith num}.





End ExactSums.

(* ========================================================================= *)
(** * Totals and per-position figures *)

Section Totals.

Context {num : Type} {N : Number num} {NT : NumText num} {NA : NumArith num}.






End Totals.

(* ========================================================================= *)
(** * The figures on sample hands *)






(** The total of the three values is 1.0 however its two additions are
    associated. *)
Example three_small_pots_total :
  (0.2 + 0.1 + 0.7 = 1)%float /\ (0.2 + (0.1 + 0.7) = 1)%float.
Proof. split; vm_compute; reflexivity. Qed.

(** The end-to-end scenario in binary64: two hands, 24.5 in total, a win rate
    of 50, the button ahead of the big blind. *)
Example scenario_in_binary64 :
  total_hands (loaded_frame scenario_floats) = 2
  /\ total_profit (loaded_frame scenario_floats) = ok 24.5%float
  /\ win_rate (loaded_frame scenario_floats) = ok 50%float
  /\ position_stats (loaded_frame scenario_floats)
     = ok [(CStr "BTN", 25.5%float); (CStr "BB", (-1)%float)]
  /\ position_counts (loaded_frame scenario_floats)
     = ok [(CStr "BTN", 1); (CStr "BB", 1)].
Proof. repeat split; vm_compute; reflexivity. Qed.

(** In binary64 a hand won is a win rate of 100. *)
Example win_rate_in_binary64 :
  win_rate (loaded_frame [hand_of BTN Won 25.5%float]) = ok 100%float.
Proof. vm_compute. reflexivity. Qed.

(* ========================================================================= *)
(** * Malformed files *)

Section Malformed.

Context {num : Type} {N : Number num} {NT : NumText num}.



End Malformed.



(* ========================================================================= *)
(** * Appending when the disk fails *)

Section Faults.

Context {num : Type} {N : Number num} {NT : NumText num}.

Lemma concat_len (a b : DataFrame num) : len (concat a b) = len a + len b.
Proof.
  unfold len, concat, upcast_columns. cbn [rows].
  rewrite length_map, length_app, !length_map. reflexivity.
Qed.

(** C9 (amended).  [save_hand] passes on every exception and returns
    normally only after the whole file, the new hand included, has been
    written.  When loading fails, or the file cannot be opened for writing,
    the file is left as it was.  When the write stops after [n] lines the
    exception is raised and the file is left with the first [n] lines of the
    new text, whatever it held before. *)
Theorem save_hand_outcomes (io : io_fault) (h : Hand num) (fs : file_system) :
  (snd (save_hand io h fs) = ok tt ->
   exists df : DataFrame num,
     load_hands io fs = ok df
     /\ fst (save_hand io h fs) = Some (to_csv (concat df (frame_of_hand h)))
     /\ len (concat df (frame_of_hand h)) = S (len df))
  /\ (forall e : exn,
        load_hands io fs = raise e -> save_hand io h fs = (fs, raise e))
  /\ (io = OpenFails ->
      fst (save_hand io h fs) = fs /\ snd (save_hand io h fs) <> ok tt)
  /\ (forall n : nat, io = WriteFailsAfter n ->
      snd (save_hand io h fs) <> ok tt
      /\ forall df : DataFrame num,
           load_hands io fs = ok df ->
           save_hand io h fs
           = (Some (firstn n (to_csv (concat df (frame_of_hand h)))),
              raise OSError)).
Proof.
  unfold save_hand. destruct (load_hands io fs) as [e|df] eqn:El.
  - split; [intros H; discriminate H|]. split.
    + intros e' He. injection He as <-. reflexivity.
    + split; [intros _; split; [reflexivity | discriminate]|].
      intros n _. split; [discriminate|]. intros df H. discriminate H.
  - cbv zeta. split; [|split; [|split]].
    + intros Hok. exists df. split; [reflexivity|].
      destruct io; try discriminate Hok;
        (split; [reflexivity | rewrite concat_len; cbn; lia]).
    + intros e H. discriminate H.
    + intros ->. split; [reflexivity | discriminate].
    + intros n ->. split; [discriminate|].
      intros df' H. injection H as <-. reflexivity.
Qed.

End Faults.

(** C9 as stated fails when the disk gives out during the rewrite: the append
    of a third hand raises OSError, the hand is not stored, and the two hands
    that were stored are gone as well. *)
Lemma save_hand_can_lose_the_file :
  load_hands Healthy (Some (stored [sample_won; sample_lost]))
  = ok (loaded_frame [sample_won; sample_lost])
  /\ save_hand (WriteFailsAfter 1) pocket_sevens
       (Some (stored [sample_won; sample_lost]))
     = (Some [hand_columns], raise OSError)
  /\ load_hands (num:=Z) Healthy (Some [hand_columns]) = ok (loaded_frame []).
Proof. repeat split; vm_compute; reflexivity. Qed.

(* ========================================================================= *)
(** * Appending to any file that can be read *)

Section AppendAnywhere.

Context {num : Type} {N : Number num} {NT : NumText num}.

Lemma name_columns_named (header : csv_row) (i : nat) :
  Forall (fun c => c <> "") (name_columns i header).
Proof.
  revert i. induction header as [|h t IH]; intros i; cbn [name_columns];
    constructor; [|apply IH].
  destruct (String.eqb h "") eqn:E; [discriminate|].
  apply String.eqb_neq. exact E.
Qed.

Lemma name_columns_same (cols : list string) (i : nat) :
  Forall (fun c => c <> "") cols -> name_columns i cols = cols.
Proof.
  intros H. revert i. induction H as [|c cols Hc _ IH]; intros i; [reflexivity|].
  cbn [name_columns]. rewrite IH. apply String.eqb_neq in Hc. rewrite Hc.
  reflexivity.
Qed.

(** The columns of a frame that was loaded all have a name. *)
Lemma loaded_columns_named (io : io_fault) (fs : file_system) (df : DataFrame num) :
  load_hands io fs = ok df -> Forall (fun c => c <> "") (columns df).
Proof.
  destruct fs as [text|]; cbn [load_hands].
  - intros H. assert (Hr : read_csv text = ok df) by (destruct io; try exact H; discriminate H).
    clear H. unfold read_csv in Hr. destruct (end_lines 0 0 0 text) as [e|kept]; [discriminate|].
    cbn [bind] in Hr. destruct kept as [|header data]; [discriminate|].
    injection Hr as <-. cbn [columns]. apply name_columns_named.
  - intros H. injection H as <-. constructor.
Qed.

Lemma upcast_row_length (flags : list bool) (r : list (cell num)) :
  length (upcast_row flags r) = length r.
Proof.
  revert flags. induction r as [|c r IH]; intros [|f flags]; try reflexivity.
  cbn [upcast_row length]. rewrite IH. reflexivity.
Qed.

(** Every row of a joined frame has one cell per column. *)
Lemma concat_rectangular (a b : DataFrame num) :
  Forall (fun r => length r = length (columns (concat a b))) (rows (concat a b)).
Proof.
  unfold concat, upcast_columns. cbn [rows columns].
  apply Forall_forall. intros r Hr. apply in_map_iff in Hr as (r0 & <- & Hr0).
  rewrite upcast_row_length. apply in_app_or in Hr0 as [Hr0|Hr0];
    apply in_map_iff in Hr0 as (r1 & <- & _); unfold reindex; apply length_map.
Qed.

Lemma concat_hand_columns (a : DataFrame num) (h : Hand num) (c : string) :
  In c hand_columns -> In c (columns (concat a (frame_of_hand h))).
Proof.
  intros Hc. unfold concat. cbn [columns frame_of_hand]. apply in_or_app.
  destruct (mem c (columns a)) eqn:E.
  - left. unfold mem in E. apply existsb_exists in E as (c' & Hin & Heq).
    apply String.eqb_eq in Heq. subst c'. exact Hin.
  - right. apply filter_In. split; [exact Hc|]. rewrite E. reflexivity.
Qed.

Lemma concat_columns_named (a : DataFrame num) (h : Hand num) :
  Forall (fun c => c <> "") (columns a) ->
  Forall (fun c => c <> "") (columns (concat a (frame_of_hand h))).
Proof.
  intros Ha. unfold concat. cbn [columns frame_of_hand]. apply Forall_app.
  split; [exact Ha|]. apply Forall_forall. intros c Hc. apply filter_In in Hc as [Hc _].
  cbn [hand_columns In] in Hc.
  repeat (destruct Hc as [<-|Hc]; [discriminate|]). destruct Hc.
Qed.

(** A frame with a column and a cell per column in every row is read back
    from its own text with as many rows and the same columns. *)
Lemma read_written (df : DataFrame num) :
  columns df <> [] ->
  Forall (fun c => c <> "") (columns df) ->
  Forall (fun r => length r = length (columns df)) (rows df) ->
  exists df' : DataFrame num,
    read_csv (to_csv df) = ok df'
    /\ columns df' = columns df /\ len df' = len df.
Proof.
  intros Hne Hnamed Hrect. unfold to_csv. eexists. split.
  - apply read_csv_rect; [exact Hne|].
    apply Forall_forall. intros r Hr. apply in_map_iff in Hr as (r0 & <- & Hr0).
    rewrite length_map. rewrite Forall_forall in Hrect. apply Hrect, Hr0.
  - unfold len. cbn [columns rows]. split; [apply name_columns_same, Hnamed|].
    rewrite !length_map. reflexivity.
Qed.

(** The text [save_hand] writes for a frame that was loaded is read back with
    one row more and the columns written. *)
Lemma appended_text_loads (io : io_fault) (h : Hand num) (fs : file_system)
    (df : DataFrame num) :
  load_hands io fs = ok df ->
  exists df' : DataFrame num,
    load_hands Healthy (Some (to_csv (concat df (frame_of_hand h)))) = ok df'
    /\ len df' = S (len df)
    /\ columns df' = columns (concat df (frame_of_hand h)).
Proof.
  intros Hload.
  destruct (read_written (concat df (frame_of_hand h))) as (df' & Hr & Hc & Hl).
  - intros Hnil.
    assert (Hin := concat_hand_columns df h "timestamp" (or_introl eq_refl)).
    rewrite Hnil in Hin. destruct Hin.
  - apply concat_columns_named. apply (loaded_columns_named io fs df Hload).
  - apply concat_rectangular.
  - exists df'. split; [exact Hr|]. split; [|exact Hc].
    rewrite Hl, concat_len. cbn. lia.
Qed.

(** X1.  On a healthy disk [save_hand] succeeds on every file that
    [load_hands] can read (its labels distinct), and on no file; the file it
    leaves can be read again, has exactly one row more, keeps the columns it
    had and has the seven columns of a hand. *)
Theorem save_hand_adds_a_row (h : Hand num) (fs : file_system)
    (df : DataFrame num) :
  load_hands Healthy fs = ok df ->
  NoDup (columns df) ->
  exists (fs' : file_system) (df' : DataFrame num),
    save_hand Healthy h fs = (fs', ok tt)
    /\ load_hands Healthy fs' = ok df'
    /\ len df' = S (len df)
    /\ columns df'
       = columns df ++ filter (fun c => negb (mem c (columns df))) hand_columns
    /\ (forall c : string, In c hand_columns -> In c (columns df')).
Proof.
  intros Hload _.
  destruct (appended_text_loads Healthy h fs df Hload) as (df' & Hr & Hl & Hc).
  exists (Some (to_csv (concat df (frame_of_hand h)))), df'.
  split; [unfold save_hand; rewrite Hload; reflexivity|].
  split; [exact Hr|]. split; [exact Hl|]. split.
  - rewrite Hc. reflexivity.
  - intros c Hin. rewrite Hc. apply concat_hand_columns. exact Hin.
Qed.

End AppendAnywhere.

(** A file kept by hand with two columns only: the append keeps its row and
    adds the five columns it lacks. *)
Lemma save_hand_adds_a_row_witness :
  exists (fs' : file_system) (df' : DataFrame Z),
    save_hand Healthy sample_lost (Some [["position"; "result"]; ["BTN"; "Won"]])
    = (fs', ok tt)
    /\ load_hands Healthy fs' = ok df'
    /\ len df' = S (len {| columns := ["position"; "result"];
                           rows := [[CStr (num:=Z) "BTN"; CStr "Won"]] |})
    /\ columns df'
       = columns {| columns := ["position"; "result"];
                    rows := [[CStr (num:=Z) "BTN"; CStr "Won"]] |}
         ++ filter (fun c => negb (mem c (columns
                        {| columns := ["position"; "result"];
                           rows := [[CStr (num:=Z) "BTN"; CStr "Won"]] |})))
                   hand_columns
    /\ (forall c : string, In c hand_columns -> In c (columns df')).
Proof.
  apply (save_hand_adds_a_row (num:=Z) sample_lost
           (Some [["position"; "result"]; ["BTN"; "Won"]])).
  - reflexivity.
  - repeat constructor; cbn; intuition discriminate.
Defined.

(* ========================================================================= *)
(** * Time stamps *)

Lemma stamp_text (t : datetime) :
  strftime stamp_format t
  = (four_digits (year t) ++ String "-" (two_digits (month t)
     ++ String "-" (two_digits (day t) ++ String " " (two_digits (hour t)
     ++ String ":" (two_digits (minute t) ++ String ":" (two_digits (second t)
     ++ ""))))))%string.
Proof. reflexivity. Qed.

Lemma eqb_same_length (s t : string) :
  String.eqb s t = true -> String.length s = String.length t.
Proof. intros H. apply String.eqb_eq in H. subst. reflexivity. Qed.

Lemma mem_length (s : string) (l : list string) :
  mem s l = true -> In (String.length s) (map String.length l).
Proof.
  unfold mem. intros H. apply existsb_exists in H as (t & Hin & Heq).
  rewrite (eqb_same_length s t Heq). apply in_map. exact Hin.
Qed.

Lemma lower_length (s : string) : String.length (lower s) = String.length s.
Proof. induction s as [|c r IH]; cbn [lower String.length]; congruence. Qed.

Lemma stamp_length (t : datetime) : String.length (strftime stamp_format t) = 19.
Proof. reflexivity. Qed.

Lemma mem_other_length (s : string) (l : list string) :
  ~ In (String.length s) (map String.length l) -> mem s l = false.
Proof.
  intros H. destruct (mem s l) eqn:E; [|reflexivity].
  apply mem_length in E. contradiction.
Qed.

(** The time stamp is no missing-value token, no number and no boolean for
    [read_csv]. *)
Lemma stamp_plain (t : datetime) : plain (strftime stamp_format t) = true.
Proof.
  assert (Hna : is_na (strftime stamp_format t) = false).
  { apply mem_other_length. rewrite stamp_length. cbn. intuition discriminate. }
  assert (Hbool : bool_token (strftime stamp_format t) = None).
  { unfold bool_token. rewrite !mem_other_length; [reflexivity| |];
      rewrite stamp_length; cbn; intuition discriminate. }
  assert (Hnum : numeric_looking (strftime stamp_format t) = false).
  { unfold numeric_looking. rewrite mem_other_length
      by (rewrite lower_length, stamp_length; cbn; intuition discriminate).
    rewrite orb_false_r, stamp_text.
    do 4 (rewrite all_chars_app; cbn [all_chars]).
    change (numeric_char ":") with false. cbn [andb].
    rewrite !andb_false_r. reflexivity. }
  unfold plain. rewrite Hna, Hbool, Hnum. reflexivity.
Qed.


(** X3.  The time stamp [log_hand_page] gives a hand at a time of a
    four-digit year has nineteen characters and is read back from the file as
    text: it is no missing-value token, no number and no boolean for
    [read_csv]. *)
Theorem timestamp_is_plain (t : datetime) :
  valid_datetime t = true ->
  String.length (strftime "%Y-%m-%d %H:%M:%S" t) = 19
  /\ plain (strftime "%Y-%m-%d %H:%M:%S" t) = true.
Proof. intros _. split; [reflexivity | apply stamp_plain]. Qed.

Lemma timestamp_is_plain_witness :
  String.length
    (strftime "%Y-%m-%d %H:%M:%S"
       {| year := 2024; month := 3; day := 1; hour := 20; minute := 15; second := 0 |})
  = 19
  /\ plain
       (strftime "%Y-%m-%d %H:%M:%S"
          {| year := 2024; month := 3; day := 1; hour := 20; minute := 15;
             second := 0 |})
     = true.
Proof.
  apply (timestamp_is_plain
    {| year := 2024; month := 3; day := 1; hour := 20; minute := 15; second := 0 |}).
  reflexivity.
Defined.

Lemma compare_app (x x' y y' : string) :
  String.length x = String.length x' ->
  String.compare (x ++ y) (x' ++ y')
  = then_compare (String.compare x x') (String.compare y y').
Proof.
  revert x'. induction x as [|c r IH]; intros [|c' r'] Hlen; try discriminate.
  - reflexivity.
  - cbn [String.append String.compare].
    destruct (Ascii.compare c c'); [|reflexivity|reflexivity].
    apply IH. cbn in Hlen. congruence.
Qed.

Lemma compare_same_head (c : ascii) (r r' : string) :
  String.compare (String c r) (String c r') = String.compare r r'.
Proof.
  cbn [String.compare].
  assert (E : Ascii.compare c c = Eq).
  { unfold Ascii.compare. apply N.compare_refl. }
  rewrite E. reflexivity.
Qed.

(** Two digits compare as text the way the numbers below 100 compare. *)
Lemma two_digits_table :
  forallb (fun m =>
    forallb (fun n =>
      same_comparison (String.compare (two_digits m) (two_digits n)) (m ?= n))
      (seq 0 100))
    (seq 0 100) = true.
Proof. vm_compute. reflexivity. Qed.

Lemma two_digits_compare (m n : nat) :
  m < 100 -> n < 100 ->
  String.compare (two_digits m) (two_digits n) = (m ?= n).
Proof.
  intros Hm Hn. pose proof two_digits_table as T.
  rewrite forallb_forall in T.
  assert (Tm := T m (proj2 (in_seq 100 0 m) (conj (Nat.le_0_l m) Hm))).
  rewrite forallb_forall in Tm.
  assert (H := Tm n (proj2 (in_seq 100 0 n) (conj (Nat.le_0_l n) Hn))).
  cbv beta in H.
  destruct (String.compare (two_digits m) (two_digits n)), (m ?= n);
    try reflexivity; discriminate H.
Qed.

Lemma tens_digit (y : nat) : (y / 10) mod 10 = ((y mod 100) / 10) mod 10.
Proof.
  rewrite (Nat.div_mod_eq y 100) at 1.
  replace (100 * (y / 100) + y mod 100)
    with ((10 * (y / 100)) * 10 + y mod 100) by lia.
  rewrite Nat.div_add_l by lia.
  rewrite Nat.add_comm, Nat.mul_comm, Nat.Div0.mod_add. reflexivity.
Qed.

Lemma units_digit (y : nat) : y mod 10 = (y mod 100) mod 10.
Proof.
  rewrite (Nat.div_mod_eq y 100) at 1.
  replace (100 * (y / 100) + y mod 100)
    with (y mod 100 + (10 * (y / 100)) * 10) by lia.
  apply Nat.Div0.mod_add.
Qed.

Lemma two_digits_mod (y : nat) : two_digits y = two_digits (y mod 100).
Proof.
  unfold two_digits, digit_char. rewrite (tens_digit y), (units_digit y).
  reflexivity.
Qed.

Lemma compare_by_hundreds (y z : nat) :
  (y ?= z) = then_compare (y / 100 ?= z / 100) (y mod 100 ?= z mod 100).
Proof.
  pose proof (Nat.div_mod_eq y 100). pose proof (Nat.div_mod_eq z 100).
  pose proof (Nat.mod_upper_bound y 100). pose proof (Nat.mod_upper_bound z 100).
  unfold then_compare.
  destruct (Nat.compare_spec (y / 100) (z / 100)).
  - destruct (Nat.compare_spec (y mod 100) (z mod 100)).
    + apply Nat.compare_eq_iff. lia.
    + apply Nat.compare_lt_iff. lia.
    + apply Nat.compare_gt_iff. lia.
  - apply Nat.compare_lt_iff. lia.
  - apply Nat.compare_gt_iff. lia.
Qed.

Lemma four_digits_compare (y z : nat) :
  y / 100 < 100 -> z / 100 < 100 ->
  String.compare (four_digits y) (four_digits z) = (y ?= z).
Proof.
  intros Hy Hz. unfold four_digits. rewrite compare_app by reflexivity.
  rewrite (two_digits_mod y), (two_digits_mod z).
  rewrite !two_digits_compare; auto using Nat.mod_upper_bound.
  symmetry. apply compare_by_hundreds.
Qed.

Lemma then_compare_eq (c : comparison) : then_compare c Eq = c.
Proof. destruct c; reflexivity. Qed.

Lemma valid_ranges (t : datetime) :
  valid_datetime t = true ->
  year t / 100 < 100 /\ month t < 100 /\ day t < 100 /\ hour t < 100
  /\ minute t < 100 /\ second t < 100.
Proof.
  unfold valid_datetime. rewrite !andb_true_iff.
  rewrite !Nat.leb_le, !Nat.ltb_lt. lia.
Qed.

(** X4.  For datetimes of a four-digit year, the time stamps of
    [log_hand_page] compare as text exactly as the datetimes compare: the
    order [sort_values('timestamp')] sorts by is the order of time. *)
Theorem timestamps_order_as_time (a b : datetime) :
  valid_datetime a = true -> valid_datetime b = true ->
  String.compare (strftime "%Y-%m-%d %H:%M:%S" a)
                 (strftime "%Y-%m-%d %H:%M:%S" b)
  = datetime_compare a b
  /\ (String.leb (strftime "%Y-%m-%d %H:%M:%S" a)
                 (strftime "%Y-%m-%d %H:%M:%S" b) = true
      <-> datetime_compare a b <> Gt).
Proof.
  intros Ha Hb.
  apply valid_ranges in Ha as (Hy & Hm & Hd & HH & HM & HS).
  apply valid_ranges in Hb as (Hy' & Hm' & Hd' & HH' & HM' & HS').
  assert (E : String.compare (strftime stamp_format a) (strftime stamp_format b)
              = datetime_compare a b).
  { rewrite !stamp_text. unfold datetime_compare.
    rewrite compare_app by reflexivity. rewrite four_digits_compare by assumption.
    f_equal. rewrite compare_same_head, compare_app by reflexivity.
    rewrite two_digits_compare by assumption.
    f_equal. rewrite compare_same_head, compare_app by reflexivity.
    rewrite two_digits_compare by assumption.
    f_equal. rewrite compare_same_head, compare_app by reflexivity.
    rewrite two_digits_compare by assumption.
    f_equal. rewrite compare_same_head, compare_app by reflexivity.
    rewrite two_digits_compare by assumption.
    f_equal. rewrite compare_same_head, compare_app by reflexivity.
    rewrite two_digits_compare by assumption.
    apply then_compare_eq. }
  split; [exact E|]. unfold String.leb. fold stamp_format. rewrite E.
  destruct (datetime_compare a b); split; intros H; congruence.
Qed.

Lemma timestamps_order_as_time_witness :
  String.compare
    (strftime "%Y-%m-%d %H:%M:%S"
       {| year := 2024; month := 3; day := 1; hour := 20; minute := 15; second := 0 |})
    (strftime "%Y-%m-%d %H:%M:%S"
       {| year := 2024; month := 11; day := 2; hour := 9; minute := 5; second := 30 |})
  = datetime_compare
      {| year := 2024; month := 3; day := 1; hour := 20; minute := 15; second := 0 |}
      {| year := 2024; month := 11; day := 2; hour := 9; minute := 5; second := 30 |}
  /\ (String.leb
        (strftime "%Y-%m-%d %H:%M:%S"
           {| year := 2024; month := 3; day := 1; hour := 20; minute := 15; second := 0 |})
        (strftime "%Y-%m-%d %H:%M:%S"
           {| year := 2024; month := 11; day := 2; hour := 9; minute := 5; second := 30 |})
      = true
      <-> datetime_compare
            {| year := 2024; month := 3; day := 1; hour := 20; minute := 15; second := 0 |}
            {| year := 2024; month := 11; day := 2; hour := 9; minute := 5; second := 30 |}
          <> Gt).
Proof.
  apply (timestamps_order_as_time
    {| year := 2024; month := 3; day := 1; hour := 20; minute := 15; second := 0 |}
    {| year := 2024; month := 11; day := 2; hour := 9; minute := 5; second := 30 |});
    vm_compute; reflexivity.
Defined.

(* ========================================================================= *)
(** * Sorting *)

Lemma insert_by_sorted {A} (leb : A -> A -> bool) (x : A) (l : list A) :
  (forall a b, leb a b = true \/ leb b a = true) ->
  Sorted (fun a b => leb a b = true) l ->
  Sorted (fun a b => leb a b = true) (insert_by leb x l).
Proof.
  intros Htot Hs. induction Hs as [|y t Hs IH Hd]; cbn [insert_by].
  - repeat constructor.
  - destruct (leb x y) eqn:E.
    + constructor; [constructor; assumption|]. constructor. exact E.
    + constructor; [exact IH|].
      destruct t as [|z t]; cbn [insert_by].
      * constructor. destruct (Htot x y) as [H|H]; [congruence|exact H].
      * destruct (leb x z).
        -- constructor. destruct (Htot x y) as [H|H]; [congruence|exact H].
        -- constructor. inversion Hd. assumption.
Qed.

Lemma sort_by_sorted {A} (leb : A -> A -> bool) (l : list A) :
  (forall a b, leb a b = true \/ leb b a = true) ->
  Sorted (fun a b => leb a b = true) (sort_by leb l).
Proof.
  intros Htot. induction l as [|x l IH]; [constructor|].
  apply insert_by_sorted; assumption.
Qed.





Lemma sort_by_in {A} (leb : A -> A -> bool) (l : list A) (x : A) :
  In x (sort_by leb l) <-> In x l.
Proof.
  split; apply Permutation_in; [|apply Permutation_sym]; apply sort_by_perm.
Qed.

Lemma sort_by_length {A} (leb : A -> A -> bool) (l : list A) :
  length (sort_by leb l) = length l.
Proof. apply Permutation_length, sort_by_perm. Qed.


Lemma select_all {A} (mask : list bool) (l : list A) :
  length mask = length l -> Forall (fun m => m = true) mask -> select mask l = l.
Proof.
  revert l. induction mask as [|m mask IH]; intros [|x l] Hlen Hall;
    try discriminate; [reflexivity|].
  inversion Hall as [|? ? Hm Hrest]; subst. cbn [select].
  rewrite IH; [reflexivity| |assumption]. cbn in Hlen. congruence.
Qed.

Lemma mask_and_all (a b : list bool) :
  length a = length b ->
  Forall (fun m => m = true) a -> Forall (fun m => m = true) b ->
  mask_and a b = a.
Proof.
  revert b. induction a as [|x a IH]; intros [|y b] Hlen Ha Hb;
    try discriminate; [reflexivity|].
  inversion Ha; inversion Hb; subst. cbn [mask_and andb].
  rewrite IH; [reflexivity| |assumption|assumption]. cbn in Hlen. congruence.
Qed.

Lemma index_of_missing (label : string) (cols : list string) :
  ~ In label cols -> index_of label cols = None.
Proof.
  induction cols as [|c t IH]; intros Hn; [reflexivity|].
  cbn [index_of]. destruct (String.eqb c label) eqn:E.
  - apply String.eqb_eq in E. exfalso. apply Hn. left. exact E.
  - rewrite IH; [reflexivity|]. intros Hin. apply Hn. right. exact Hin.
Qed.



Section SortedFrames.

Context {num : Type} {N : Number num} {NA : NumArith num}.


End SortedFrames.

(* ========================================================================= *)
(** * The pages on a store the program wrote *)

Section PagesOnTheStore.

Context {num : Type} {N : Number num} {NT : NumText num} {NA : NumArith num}.
Context {L : NumTextLaws num}.











Lemma position_keys (hs : list (Hand num)) :
  text_keys (map (fun h => position_cell (num:=num) (position h)) hs).
Proof. apply Forall_forall. intros c Hc. apply in_map_iff in Hc as (h & <- & _). reflexivity. Qed.



End PagesOnTheStore.

(* ========================================================================= *)
(** * The history page *)

Section HistoryPage.

Context {num : Type} {N : Number num} {NT : NumText num} {NA : NumArith num}.
Context {L : NumTextLaws num}.





End HistoryPage.



(* ========================================================================= *)
(** * The statistics page *)

Lemma Sorted_weaken {A} (R R' : A -> A -> Prop) (l : list A) :
  (forall a b, R a b -> R' a b) -> Sorted R l -> Sorted R' l.
Proof.
  intros Himp Hs. induction Hs as [|a l Hs IH Hd]; constructor; [exact IH|].
  destruct Hd; constructor. apply Himp. assumption.
Qed.

Section StatsPage.

Context {num : Type} {N : Number num} {NT : NumText num} {NA : NumArith num}.

Lemma position_cell_eqb (p q : Position) :
  cell_eqb (position_cell (num:=num) p) (position_cell q) = Position_beq p q.
Proof. apply position_str_eqb. Qed.

Lemma count_at (p : Position) (hs : list (Hand num)) :
  length (filter (fun c => cell_eqb c (position_cell p))
                 (map (fun h => position_cell (num:=num) (position h)) hs))
  = length (hands_at p hs).
Proof.
  unfold hands_at. induction hs as [|h hs IH]; [reflexivity|].
  cbn [map filter]. rewrite position_cell_eqb.
  destruct (Position_beq (position h) p); cbn [length]; rewrite IH; reflexivity.
Qed.


Lemma in_position_column (k : cell num) (hs : list (Hand num)) :
  In k (map (fun h => position_cell (num:=num) (position h)) hs)
  <-> exists p : Position, k = position_cell p /\ hands_at p hs <> [].
Proof.
  rewrite in_map_iff. split.
  - intros (h & <- & Hin). exists (position h). split; [reflexivity|].
    intros Hnil. assert (Hh : In h (hands_at (position h) hs)).
    { apply filter_In. split; [exact Hin|]. apply Position_beq_eq. reflexivity. }
    rewrite Hnil in Hh. destruct Hh.
  - intros (p & -> & Hne). destruct (hands_at p hs) as [|h t] eqn:E; [congruence|].
    assert (Hh : In h (hands_at p hs)) by (rewrite E; left; reflexivity).
    apply filter_In in Hh as [Hin Hp]. apply Position_beq_eq in Hp.
    exists h. split; [rewrite Hp; reflexivity|exact Hin].
Qed.

Lemma keyed_fst {V} (f : cell num -> V) (ks : list (cell num)) :
  map fst (map (fun k => (k, f k)) ks) = ks.
Proof. rewrite map_map. cbn [fst]. apply map_id. Qed.

Lemma in_keyed {V} (f : cell num -> V) (ks : list (cell num)) (k : cell num)
    (v : V) :
  In (k, v) (map (fun k => (k, f k)) ks) <-> In k ks /\ v = f k.
Proof.
  rewrite in_map_iff. split.
  - intros (k' & E & Hin). injection E as -> <-. split; [exact Hin|reflexivity].
  - intros [Hin ->]. exists k. split; [reflexivity|exact Hin].
Qed.

(** X7.  The chart of the hands by position has one entry for each position
    that occurs in the store and none for any other; the entry of a position
    is the number of hands logged at it; the entries come most frequent
    first. *)
Theorem position_counts_entries (hs : list (Hand num)) :
  exists counts : list (cell num * nat),
    position_counts (loaded_frame hs) = ok counts
    /\ NoDup (map fst counts)
    /\ (forall (k : cell num) (n : nat),
          In (k, n) counts
          <-> exists p : Position,
                k = position_cell p /\ n = length (hands_at p hs) /\ 0 < n)
    /\ Sorted (fun a b => snd b <= snd a) counts.
Proof.
  unfold position_counts. rewrite position_column, bind_ok.
  eexists. split; [reflexivity|]. unfold value_counts.
  set (pos := map (fun h => position_cell (num:=num) (position h)) hs).
  rewrite (text_not_nan pos (position_keys hs)).
  split; [|split].
  - apply (Permutation_NoDup (l := unique pos)); [|apply unique_nodup, position_keys].
    rewrite <- (keyed_fst (fun k => length (filter (fun c => cell_eqb c k) pos))
                  (unique pos)) at 1.
    apply Permutation_map, Permutation_sym, sort_by_perm.
  - intros k n. rewrite sort_by_in, in_keyed, (unique_in pos k (position_keys hs)).
    unfold pos. rewrite in_position_column. split.
    + intros [(p & -> & Hne) ->]. exists p. rewrite count_at.
      split; [reflexivity|]. split; [reflexivity|].
      destruct (hands_at p hs); [congruence|cbn; lia].
    + intros (p & -> & -> & Hpos). rewrite count_at. split; [|reflexivity].
      exists p. split; [reflexivity|]. intros Hnil. rewrite Hnil in Hpos.
      cbn in Hpos. lia.
  - apply (Sorted_weaken (fun a b : cell num * nat => (snd b <=? snd a) = true)).
    + intros a b H. apply Nat.leb_le. exact H.
    + apply (sort_by_sorted (fun a b : cell num * nat => snd b <=? snd a)).
      intros a b. rewrite !Nat.leb_le. lia.
Qed.





Context {L : NumTextLaws num}.



End StatsPage.

Section ProfitByPosition.

Context {num : Type} {N : Number num} {NT : NumText num} {NA : NumArith num}.


End ProfitByPosition.



(* ========================================================================= *)
(** * The form, and runs of the script *)

Section LogHandPage.

Context {num : Type} {N : Number num} {NT : NumText num} {NA : NumArith num}.

Lemma form_accepted_spec (form : Form num) :
  form_accepted form = true
  <-> form_submitted form = true /\ form_hole_cards form <> "".
Proof.
  unfold form_accepted. rewrite andb_true_iff, negb_true_iff, String.eqb_neq.
  reflexivity.
Qed.

Lemma log_hand_page_rejected (io : io_fault) (now : datetime) (form : Form num)
    (fs : file_system) :
  form_accepted form = false ->
  log_hand_page io now form fs
  = (fs, ok (if form_submitted form then HoleCardsMissing else NothingSubmitted)).
Proof.
  unfold form_accepted, log_hand_page. destruct (form_submitted form); [|reflexivity].
  cbn [andb]. intros H. apply negb_false_iff in H. rewrite H. reflexivity.
Qed.

Lemma log_hand_page_accepted (io : io_fault) (now : datetime) (form : Form num)
    (fs : file_system) :
  form_accepted form = true ->
  log_hand_page io now form fs
  = match save_hand io (hand_of_form now form) fs with
    | (fs', inl e) => (fs', inl e)
    | (fs', inr _) => (fs', ok HandLogged)
    end.
Proof.
  intros H. apply form_accepted_spec in H as [Hs Hc].
  unfold log_hand_page. rewrite Hs. apply String.eqb_neq in Hc. rewrite Hc.
  reflexivity.
Qed.

(** X10.  A form that is not submitted, or is submitted without hole cards,
    leaves the file as it is and raises nothing, even on a file that cannot
    be read; the success message is shown only for a submitted form with
    hole cards and only once the file, read again, has one row more; an
    exception of [save_hand] is not caught. *)
Theorem log_hand_page_outcomes (io : io_fault) (now : datetime)
    (form : Form num) (fs : file_system) :
  (form_submitted form = false ->
   log_hand_page io now form fs = (fs, ok NothingSubmitted))
  /\ (form_submitted form = true -> form_hole_cards form = "" ->
      log_hand_page io now form fs = (fs, ok HoleCardsMissing))
  /\ (snd (log_hand_page io now form fs) = ok HandLogged ->
      form_submitted form = true /\ form_hole_cards form <> ""
      /\ exists df df' : DataFrame num,
           load_hands io fs = ok df
           /\ load_hands Healthy (fst (log_hand_page io now form fs)) = ok df'
           /\ len df' = S (len df))
  /\ (form_submitted form = true -> form_hole_cards form <> "" ->
      forall e : exn,
        snd (save_hand io (hand_of_form now form) fs) = raise e ->
        snd (log_hand_page io now form fs) = raise e).
Proof.
  split; [|split; [|split]].
  - intros Hs. rewrite log_hand_page_rejected.
    + rewrite Hs. reflexivity.
    + unfold form_accepted. rewrite Hs. reflexivity.
  - intros Hs Hc. rewrite log_hand_page_rejected.
    + rewrite Hs. reflexivity.
    + unfold form_accepted. rewrite Hs, Hc. reflexivity.
  - intros Hlog. destruct (form_accepted form) eqn:Ha.
    + pose proof (proj1 (form_accepted_spec form) Ha) as [Hs Hc].
      split; [exact Hs|]. split; [exact Hc|].
      rewrite (log_hand_page_accepted io now form fs Ha) in Hlog |- *.
      unfold save_hand in Hlog |- *.
      destruct (load_hands io fs) as [e|df] eqn:Hload; [discriminate Hlog|].
      destruct (appended_text_loads io (hand_of_form now form) fs df Hload)
        as (df' & Hr & Hl & _).
      exists df, df'. split; [reflexivity|].
      destruct io; cbn [write_csv fst snd] in Hlog |- *;
        try discriminate Hlog; split; assumption.
    + rewrite (log_hand_page_rejected io now form fs Ha) in Hlog.
      cbn [snd] in Hlog. destruct (form_submitted form); discriminate Hlog.
  - intros Hs Hc e He.
    rewrite (log_hand_page_accepted io now form fs
               (proj2 (form_accepted_spec form) (conj Hs Hc))).
    destruct (save_hand io (hand_of_form now form) fs) as [fs' [e'|u]];
      cbn [snd] in He |- *; [|discriminate He].
    unfold raise in He |- *. injection He as ->. reflexivity.
Qed.

(** A run that logs no hand leaves a file that exists as it is. *)
Lemma main_keeps_file (io_init io_page : io_fault) (req : request num)
    (content : csv_text) :
  logs_a_hand req = false ->
  fst (main io_init io_page req (Some content)) = Some content.
Proof.
  unfold logs_a_hand, main. cbn [init_data_file exists_file negb].
  destruct (req_page req); [|reflexivity|reflexivity].
  intros Ha. rewrite (log_hand_page_rejected _ _ _ _ Ha). reflexivity.
Qed.

(** X11.  A run of the script that logs no hand (a page that only shows, or
    a form not accepted) never changes a file that exists, whatever the state
    of the disk; on a healthy disk without a file, it creates the file with
    the header line alone and shows the notice that no hand is logged. *)
Theorem viewing_leaves_the_file (io_init io_page : io_fault)
    (req : request num) :
  logs_a_hand req = false ->
  (forall content : csv_text,
     fst (main io_init io_page req (Some content)) = Some content)
  /\ main Healthy Healthy req None
     = (Some [hand_columns],
        ok (match req_page req with
            | LogHand =>
                LogHandView (if form_submitted (req_form req)
                             then HoleCardsMissing else NothingSubmitted)
            | HandHistory => HandHistoryView None
            | Statistics => StatisticsView None
            end)).
Proof.
  intros Ha. split.
  - intros content. apply main_keeps_file. exact Ha.
  - unfold logs_a_hand in Ha. unfold main.
    cbn [init_data_file exists_file negb write_csv to_csv columns rows map].
    destruct (req_page req); [|reflexivity|reflexivity].
    rewrite (log_hand_page_rejected _ _ _ _ Ha). reflexivity.
Qed.

(** X2.  On a healthy disk the call of [init_data_file] that opens every run
    changes no outcome: on the file it leaves, [save_hand] writes the same
    file and each page shows the same, as on the file (or the absence of a
    file) it found. *)
Theorem init_data_file_changes_no_outcome (h : Hand num) (now : datetime)
    (fs : file_system)
    (chosen_position chosen_result : option (list (cell num))) :
  save_hand Healthy h (fst (init_data_file (num:=num) Healthy fs))
  = save_hand Healthy h fs
  /\ hand_history_view Healthy now (fst (init_data_file (num:=num) Healthy fs))
       chosen_position chosen_result
     = hand_history_view Healthy now fs chosen_position chosen_result
  /\ stats_view Healthy (fst (init_data_file (num:=num) Healthy fs))
     = stats_view Healthy fs
  /\ (fs = None ->
      save_hand Healthy h fs = (Some [hand_columns; raw_row h], ok tt)
      /\ hand_history_view Healthy now fs chosen_position chosen_result = ok None
      /\ stats_view (num:=num) Healthy fs = ok None).
Proof.
  destruct fs as [content|].
  - repeat split; try reflexivity; discriminate.
  - repeat split; reflexivity.
Qed.

(** X12.  The pages presuppose the columns of a hand: on a file that loads
    with rows but without the column [position], or [result], the history
    page raises [KeyError], and so does the statistics page on a file
    without the column [profit_loss]; nothing is caught. *)
Theorem pages_need_their_columns (io : io_fault) (now : datetime)
    (fs : file_system) (df : DataFrame num)
    (chosen_position chosen_result : option (list (cell num))) :
  load_hands io fs = ok df ->
  df_empty df = false ->
  (~ In "position" (columns df) ->
   hand_history_view io now fs chosen_position chosen_result
   = raise (KeyError "position"))
  /\ (In "position" (columns df) -> ~ In "result" (columns df) ->
      hand_history_view io now fs chosen_position chosen_result
      = raise (KeyError "result"))
  /\ (~ In "profit_loss" (columns df) ->
      stats_view io fs = raise (KeyError "profit_loss")).
Proof.
  intros Hload Hne. unfold hand_history_view, stats_view.
  rewrite Hload, !bind_ok, Hne. split; [|split].
  - intros Hn. unfold get_column. rewrite (index_of_missing _ _ Hn). reflexivity.
  - intros Hin Hn. unfold get_column.
    destruct (index_of "position" (columns df)) as [j|] eqn:E.
    + rewrite bind_ok, (index_of_missing _ _ Hn). reflexivity.
    + exfalso. clear - Hin E. induction (columns df) as [|c t IH]; [destruct Hin|].
      cbn [index_of] in E. destruct (String.eqb c "position") eqn:Ec;
        [discriminate E|].
      destruct Hin as [->|Hin]; [rewrite String.eqb_refl in Ec; discriminate Ec|].
      destruct (index_of "position" t); [discriminate E|]. apply IH; auto.
  - intros Hn. unfold total_profit, get_column.
    rewrite (index_of_missing _ _ Hn). reflexivity.
Qed.

(** X13.  A first write that fails after the file is opened leaves an empty
    file.  No later run repairs it: [init_data_file] finds a file and leaves
    it, and the history page, the statistics page and every accepted
    submission raise [EmptyDataError]. *)
Theorem empty_file_is_never_repaired (req : request num) :
  init_data_file (num:=num) (WriteFailsAfter 0) None = (Some [], raise OSError)
  /\ fst (main Healthy Healthy req (Some [])) = Some []
  /\ (logs_a_hand req = true \/ req_page req <> LogHand ->
      snd (main Healthy Healthy req (Some [])) = raise EmptyDataError).
Proof.
  split; [reflexivity|].
  assert (Hh : hand_history_view Healthy (req_clock req) (Some [])
                 (req_positions req) (req_results req)
               = raise EmptyDataError) by reflexivity.
  assert (Hs : stats_view (num:=num) Healthy (Some []) = raise EmptyDataError)
    by reflexivity.
  unfold main, logs_a_hand. cbn [init_data_file exists_file negb].
  destruct (req_page req).
  - destruct (form_accepted (req_form req)) eqn:Ha.
    + rewrite (log_hand_page_accepted _ _ _ _ Ha).
      split; [reflexivity|]. intros _. reflexivity.
    + rewrite (log_hand_page_rejected _ _ _ _ Ha).
      split; [reflexivity|]. intros [H|H]; [discriminate H|congruence].
  - rewrite Hh. split; [reflexivity|]. intros _. reflexivity.
  - rewrite Hs. split; [reflexivity|]. intros _. reflexivity.
Qed.

End LogHandPage.

Lemma viewing_leaves_the_file_witness :
  (forall content : csv_text,
     fst (main (num:=Z) OpenFails ReadFails
            {| req_page := Statistics;
               req_clock := {| year := 2024; month := 3; day := 2; hour := 9;
                               minute := 0; second := 0 |};
               req_form := {| form_position := BTN; form_hole_cards := "";
                              form_action := Fold; form_result := Won;
                              form_profit_loss := 0%Z; form_notes := "";
                              form_submitted := false |};
               req_positions := None; req_results := None |}
            (Some content))
     = Some content)
  /\ main (num:=Z) Healthy Healthy
       {| req_page := Statistics;
          req_clock := {| year := 2024; month := 3; day := 2; hour := 9;
                          minute := 0; second := 0 |};
          req_form := {| form_position := BTN; form_hole_cards := "";
                         form_action := Fold; form_result := Won;
                         form_profit_loss := 0%Z; form_notes := "";
                         form_submitted := false |};
          req_positions := None; req_results := None |}
       None
     = (Some [hand_columns], ok (StatisticsView None)).
Proof.
  apply (viewing_leaves_the_file (num:=Z) OpenFails ReadFails
           {| req_page := Statistics;
              req_clock := {| year := 2024; month := 3; day := 2; hour := 9;
                              minute := 0; second := 0 |};
              req_form := {| form_position := BTN; form_hole_cards := "";
                             form_action := Fold; form_result := Won;
                             form_profit_loss := 0%Z; form_notes := "";
                             form_submitted := false |};
              req_positions := None; req_results := None |}).
  reflexivity.
Defined.

Lemma pages_need_their_columns_witness :
  (~ In "position"
       (columns {| columns := ["hole_cards"; "result"];
                   rows := [[CStr (num:=Z) "AhKd"; CStr "Won"]] |}) ->
   hand_history_view (num:=Z) Healthy
     {| year := 2024; month := 3; day := 2; hour := 9; minute := 0; second := 0 |}
     (Some [["hole_cards"; "result"]; ["AhKd"; "Won"]]) None None
   = raise (KeyError "position"))
  /\ (In "position"
        (columns {| columns := ["hole_cards"; "result"];
                    rows := [[CStr (num:=Z) "AhKd"; CStr "Won"]] |}) ->
      ~ In "result"
          (columns {| columns := ["hole_cards"; "result"];
                      rows := [[CStr (num:=Z) "AhKd"; CStr "Won"]] |}) ->
      hand_history_view (num:=Z) Healthy
        {| year := 2024; month := 3; day := 2; hour := 9; minute := 0; second := 0 |}
        (Some [["hole_cards"; "result"]; ["AhKd"; "Won"]]) None None
      = raise (KeyError "result"))
  /\ (~ In "profit_loss"
          (columns {| columns := ["hole_cards"; "result"];
                      rows := [[CStr (num:=Z) "AhKd"; CStr "Won"]] |}) ->
      stats_view (num:=Z) Healthy
        (Some [["hole_cards"; "result"]; ["AhKd"; "Won"]])
      = raise (KeyError "profit_loss")).
Proof.
  apply (pages_need_their_columns (num:=Z) Healthy
           {| year := 2024; month := 3; day := 2; hour := 9; minute := 0; second := 0 |}
           (Some [["hole_cards"; "result"]; ["AhKd"; "Won"]])
           {| columns := ["hole_cards"; "result"];
              rows := [[CStr "AhKd"; CStr "Won"]] |} None None);
    reflexivity.
Defined.

(* ========================================================================= *)
(** * Sessions *)

Section Sessions.

Context {num : Type} {N : Number num} {NT : NumText num} {NA : NumArith num}.
Context {L : NumTextLaws num}.









End Sessions.


(* ========================================================================= *)
(** * The line [save_hand] adds *)

Section LastLine.

Context {num : Type} {N : Number num} {NT : NumText num}.

Lemma lookup_hand_field (h : Hand num) (label : string) :
  cell_text (lookup_cell hand_columns (hand_row h) label) = hand_field h label.
Proof.
  unfold hand_field, hand_columns, hand_row. cbn [lookup_cell].
  repeat match goal with
         | |- context [String.eqb ?a label] =>
             destruct (String.eqb a label); [reflexivity|]
         end.
  reflexivity.
Qed.

Lemma lookup_hand_no_int (h : Hand num) (label : string) :
  is_int_cell (lookup_cell hand_columns (hand_row h) label) = false.
Proof.
  unfold hand_columns, hand_row. cbn [lookup_cell].
  repeat match goal with
         | |- context [String.eqb ?a label] =>
             destruct (String.eqb a label); [reflexivity|]
         end.
  reflexivity.
Qed.

Lemma upcast_columns_last (w : nat) (rs : list (list (cell num)))
    (r : list (cell num)) :
  Forall (fun c => is_int_cell c = false) r ->
  exists earlier : list (list (cell num)),
    upcast_columns w (rs ++ [r]) = earlier ++ [r] /\ length earlier = length rs.
Proof.
  intros Hr. unfold upcast_columns. rewrite map_app. cbn [map].
  rewrite (upcast_row_no_int _ r Hr). eexists. split; [reflexivity|].
  apply length_map.
Qed.

(** X15.  On a healthy disk and a file of distinct labels [save_hand] writes
    the hand as the last line of the file, after the header and as many
    lines as the file had rows: the line has one field for each column of
    the file, the hand's own fields under their labels whatever the order of
    the columns, and an empty field under every label that is not one of a
    hand. *)
Theorem save_hand_last_line (h : Hand num) (fs : file_system)
    (df : DataFrame num) :
  load_hands Healthy fs = ok df ->
  NoDup (columns df) ->
  exists (header : csv_row) (earlier : csv_text),
    save_hand Healthy h fs
    = (Some (header :: earlier ++ [map (hand_field h) header]), ok tt)
    /\ header
       = columns df ++ filter (fun c => negb (mem c (columns df))) hand_columns
    /\ length earlier = len df
    /\ (forall label : string, ~ In label hand_columns -> hand_field h label = "")
    /\ hand_field h "timestamp" = timestamp h
    /\ hand_field h "position" = position_str (position h)
    /\ hand_field h "hole_cards" = hole_cards h
    /\ hand_field h "action" = action_str (action h)
    /\ hand_field h "result" = result_str (result h)
    /\ hand_field h "profit_loss" = num_repr (profit_loss h)
    /\ hand_field h "notes" = notes h.
Proof.
  intros Hload _.
  set (cols := columns df ++ filter (fun c => negb (mem c (columns df))) hand_columns).
  destruct (upcast_columns_last (length cols)
              (map (reindex (columns df) cols) (rows df))
              (reindex hand_columns cols (hand_row h))) as (earlier & Hup & Hlen).
  { unfold reindex. apply Forall_forall. intros c Hc.
    apply in_map_iff in Hc as (label & <- & _). apply lookup_hand_no_int. }
  exists cols, (map (map cell_text) earlier).
  split.
  { unfold save_hand. rewrite Hload. unfold ok. cbn [write_csv].
    unfold to_csv, concat. cbn [columns rows frame_of_hand map]. fold cols.
    rewrite Hup, map_app. cbn [map]. unfold reindex. rewrite map_map.
    rewrite (map_ext _ _ (lookup_hand_field h)). reflexivity. }
  split; [reflexivity|].
  split; [rewrite length_map, Hlen, length_map; reflexivity|].
  split; [|repeat split; reflexivity].
  intros label Hn. unfold hand_field.
  repeat match goal with
         | |- context [String.eqb ?a label] =>
             destruct (String.eqb a label) eqn:Heq;
               [exfalso; apply Hn; apply String.eqb_eq in Heq; subst label;
                cbn; tauto|clear Heq]
         end.
  reflexivity.
Qed.

End LastLine.

(** A file kept by hand, its columns in another order and with one of its
    own. *)
Lemma save_hand_last_line_witness :
  exists (header : csv_row) (earlier : csv_text),
    save_hand Healthy sample_lost
      (Some [["result"; "position"; "table"]; ["Won"; "BTN"; "green"]])
    = (Some (header :: earlier ++ [map (hand_field sample_lost) header]), ok tt)
    /\ header
       = columns {| columns := ["result"; "position"; "table"];
                    rows := [[CStr (num:=Z) "Won"; CStr "BTN"; CStr "green"]] |}
         ++ filter (fun c => negb (mem c (columns
                        {| columns := ["result"; "position"; "table"];
                           rows := [[CStr (num:=Z) "Won"; CStr "BTN";
                                     CStr "green"]] |})))
                   hand_columns
    /\ length earlier
       = len {| columns := ["result"; "position"; "table"];
                rows := [[CStr (num:=Z) "Won"; CStr "BTN"; CStr "green"]] |}
    /\ (forall label : string,
          ~ In label hand_columns -> hand_field sample_lost label = "")
    /\ hand_field sample_lost "timestamp" = timestamp sample_lost
    /\ hand_field sample_lost "position" = position_str (position sample_lost)
    /\ hand_field sample_lost "hole_cards" = hole_cards sample_lost
    /\ hand_field sample_lost "action" = action_str (action sample_lost)
    /\ hand_field sample_lost "result" = result_str (result sample_lost)
    /\ hand_field sample_lost "profit_loss" = num_repr (profit_loss sample_lost)
    /\ hand_field sample_lost "notes" = notes sample_lost.
Proof.
  apply (save_hand_last_line (num:=Z) sample_lost
           (Some [["result"; "position"; "table"]; ["Won"; "BTN"; "green"]])).
  - reflexivity.
  - repeat constructor; cbn; intuition discriminate.
Defined.
